(** * The Monaco bridge of shiki ([packages/monaco/src/index.ts])

    A shallow embedding of the tokenization bridge between the shiki
    highlighting engine and the Monaco editor, and the properties of its
    colour normalizer, theme converter, scope-colour index, line states
    and tokenizer.

    JavaScript strings are modelled as [string]; the colour strings the
    bridge handles are ASCII, and [toLowerCase] is modelled on that range
    (the letters A-Z are mapped to a-z, every other character is kept).
    [undefined] is modelled by [None]. *)

From Stdlib Require Import Ascii String NArith List Bool Lia.
From stdpp Require Import base option list gmap strings.

Local Open Scope string_scope.

(** ** JavaScript string operations used by the bridge *)

Module JS.

(** [String.prototype.toLowerCase] on ASCII characters. *)
Definition lower_ascii (c : ascii) : ascii :=
  let n := N_of_ascii c in
  if (65 <=? n)%N && (n <=? 90)%N then ascii_of_N (n + 32) else c.

Fixpoint toLowerCase (s : string) : string :=
  match s with
  | EmptyString => EmptyString
  | String c r => String (lower_ascii c) (toLowerCase r)
  end.

(** [s.replace(p, '')] for a one-character string pattern [p]: only the
    first occurrence of [p] is removed, wherever it is. *)
Fixpoint replace_first (p : ascii) (s : string) : string :=
  match s with
  | EmptyString => EmptyString
  | String c r => if Ascii.eqb c p then r else String c (replace_first p r)
  end.

(** [s.split('').map(c => c + c).join('')]. *)
Fixpoint double_chars (s : string) : string :=
  match s with
  | EmptyString => EmptyString
  | String c r => String c (String c (double_chars r))
  end.

(** [s.length], as a number. *)
Definition length (s : string) : N := N.of_nat (String.length s).

(** Truthiness of a string value: the empty string is falsy. *)
Definition truthy (s : string) : bool :=
  match s with EmptyString => false | String _ _ => true end.

(** [s.substring(0, n)]. *)
Fixpoint prefix (n : nat) (s : string) : string :=
  match n, s with
  | S n', String c r => String c (prefix n' r)
  | _, _ => EmptyString
  end.

End JS.

(** ** Color Normalizer: [normalizeColor] *)

(** The body of [normalizeColor] on a string argument. *)
Definition normalizeColor_string (color : string) : string :=
  if negb (JS.truthy color) then color
  else
    let color := JS.toLowerCase (JS.replace_first "#"%char color) in
    if (JS.length color =? 3)%N || (JS.length color =? 4)%N
    then JS.double_chars color
    else color.

(** [normalizeColor(color: string | undefined)]: [!color] holds for
    [undefined] and for the empty string, and both are returned as they
    are. *)
Definition normalizeColor (color : option string) : option string :=
  match color with
  | None => None
  | Some c => Some (normalizeColor_string c)
  end.

(** The normalizer as the specification words it: strip a leading marker,
    lowercase, expand a 3- or 4-character short form. *)
Definition strip_leading_marker (s : string) : string :=
  match s with
  | String c r => if Ascii.eqb c "#"%char then r else s
  | EmptyString => EmptyString
  end.

(** Expansion of a short form: a string of 3 or 4 characters has each
    character duplicated. *)
Definition expand_short (c : string) : string :=
  if (JS.length c =? 3)%N || (JS.length c =? 4)%N
  then JS.double_chars c else c.

Definition spec_normalize (s : string) : string :=
  expand_short (JS.toLowerCase (strip_leading_marker s)).

(** The normalized form of the specification: lowercase hexadecimal
    digits, six or eight of them, no marker. *)
Definition is_lower_hex (c : ascii) : bool :=
  let n := N_of_ascii c in
  ((48 <=? n)%N && (n <=? 57)%N) || ((97 <=? n)%N && (n <=? 102)%N).

Fixpoint all_chars (p : ascii -> bool) (s : string) : bool :=
  match s with
  | EmptyString => true
  | String c r => p c && all_chars p r
  end.

Definition normalized_form (s : string) : bool :=
  all_chars is_lower_hex s
  && ((JS.length s =? 6)%N || (JS.length s =? 8)%N).

(** Occurrences of the marker in a string. *)
Fixpoint count_char (p : ascii) (s : string) : nat :=
  match s with
  | EmptyString => 0
  | String c r => (if Ascii.eqb c p then 1 else 0) + count_char p r
  end.

(** The marker occurs nowhere after the first character. *)
Definition marker_only_leading (s : string) : bool :=
  match s with
  | EmptyString => true
  | String _ r => Nat.eqb (count_char "#"%char r) 0
  end.

(** ** Themes *)

(** A rule of a host-form theme ([monaco.editor.ITokenThemeRule]): the
    [foreground] field is optional. *)
Record Rule := mkRule {
  token : string;
  foreground : option string
}.

(** The [scope] field of a scope-settings entry: absent, one scope, or an
    array of scopes. *)
Inductive ScopeField :=
| ScopeAbsent
| ScopeOne (s : string)
| ScopeMany (ss : list string).

(** The [settings] record of an entry; only [foreground] is read. *)
Record RawSettings := mkRawSettings {
  settings_foreground : option string
}.

Record ThemeEntry := mkThemeEntry {
  scope : ScopeField;
  entry_settings : option RawSettings
}.

(** A source-form theme ([ThemeRegistrationResolved]) as a JavaScript
    object: every field the converter reads may be missing. *)
Record Theme := mkTheme {
  theme_rules : option (list Rule);
  theme_settings : option (list ThemeEntry);
  theme_tokenColors : option (list ThemeEntry);
  theme_colors : option (gmap string string);
  theme_type : string
}.

Inductive Base := vs | vs_dark.

(** A host-form theme ([MonacoTheme]). *)
Record MonacoTheme := mkMonacoTheme {
  base : Base;
  inherit : bool;
  colors : gmap string string;
  rules : list Rule
}.

(** ** Outcomes: a JavaScript call returns a value or throws *)

Inductive Error :=
| TypeError (what : string)
| HostError (what : string).

Inductive Outcome (A : Type) :=
| Ok (a : A)
| Throw (e : Error).
Arguments Ok {A} a.
Arguments Throw {A} e.

Definition obind {A B} (m : Outcome A) (k : A -> Outcome B) : Outcome B :=
  match m with
  | Ok a => k a
  | Throw e => Throw e
  end.

Definition is_ok {A} (m : Outcome A) : bool :=
  match m with Ok _ => true | Throw _ => false end.

(** ** Theme Converter: [textmateThemeToMonacoTheme] *)

(** [Array.isArray(scope) ? scope : [scope]]; an absent scope gives the
    one-element array holding [undefined]. *)
Definition scopes_of (sc : ScopeField) : list (option string) :=
  match sc with
  | ScopeAbsent => [None]
  | ScopeOne s => [Some s]
  | ScopeMany ss => Some <$> ss
  end.

(** The inner loop over the scopes of one entry: a rule is pushed when
    both [settings.foreground] and the scope are truthy. *)
Definition push_scopes (fg : option string) (scopes : list (option string))
    (acc : list Rule) : list Rule :=
  foldl (fun acc s =>
           match fg, s with
           | Some f, Some s =>
               if JS.truthy f && JS.truthy s
               then (acc ++ [mkRule s (Some (normalizeColor_string f))])%list
               else acc
           | _, _ => acc
           end) acc scopes.

(** The outer loop. [settings.foreground] is read inside the loop over
    the scopes of the entry: an entry that has no [settings] throws at its
    first scope, and is passed over when its scope array is empty. *)
Fixpoint convert_entries (entries : list ThemeEntry) (acc : list Rule)
    : Outcome (list Rule) :=
  match entries with
  | [] => Ok acc
  | e :: rest =>
      match entry_settings e with
      | None =>
          match scopes_of (scope e) with
          | [] => convert_entries rest acc
          | _ :: _ =>
              Throw (TypeError "Cannot read properties of undefined (reading 'foreground')")
          end
      | Some st =>
          convert_entries rest
            (push_scopes (settings_foreground st) (scopes_of (scope e)) acc)
      end
  end.

(** The entry list the converter iterates: [theme.settings || theme.tokenColors]. *)
Definition themeSettings_of (theme : Theme) : option (list ThemeEntry) :=
  match theme_settings theme with
  | Some l => Some l
  | None => theme_tokenColors theme
  end.

Definition textmateThemeToMonacoTheme (theme : Theme) : Outcome MonacoTheme :=
  obind
    (match theme_rules theme with
     | Some rules => Ok rules
     | None =>
         match themeSettings_of theme with
         | None => Throw (TypeError "themeSettings is not iterable")
         | Some themeSettings => convert_entries themeSettings []
         end
     end)
    (fun rules =>
       Ok {| base := if String.eqb (theme_type theme) "light" then vs else vs_dark;
             inherit := false;
             colors := (fun value => "#" ++ normalizeColor_string value)
                         <$> default ∅ (theme_colors theme);
             rules := rules |}).

(** The rules one entry contributes, as a list: one per non-empty scope
    when the entry has a non-empty foreground, none otherwise. *)
Definition entry_rules (e : ThemeEntry) : list Rule :=
  match entry_settings e ≫= settings_foreground with
  | Some f =>
      if JS.truthy f
      then omap (fun s => match s with
                          | Some s => if JS.truthy s
                                      then Some (mkRule s (Some (normalizeColor_string f)))
                                      else None
                          | None => None
                          end) (scopes_of (scope e))
      else []
  | None => []
  end.

(** ** Scope-Color Index *)

(** One step of the [forEach] over the rules of the active theme. *)
Definition index_step (colorToScopeMap : gmap string string) (rule : Rule)
    : gmap string string :=
  match normalizeColor (foreground rule) with
  | Some c =>
      if JS.truthy c && negb (bool_decide (is_Some (colorToScopeMap !! c)))
      then <[c := token rule]> colorToScopeMap
      else colorToScopeMap
  | None => colorToScopeMap
  end.

Definition build_index (rules : list Rule) : gmap string string :=
  foldl index_step ∅ rules.

(** [findScopeByColor(color) || '']. *)
Definition scope_of_color (colorToScopeMap : gmap string string)
    (color : string) : string :=
  match colorToScopeMap !! color with
  | Some sc => if JS.truthy sc then sc else ""
  | None => ""
  end.

(** The first rule of a list whose normalized foreground is [c]. *)
Definition first_rule_of_color (c : string) (rules : list Rule) : option Rule :=
  List.find (fun r => bool_decide (normalizeColor (foreground r) = Some c)) rules.

(** ** The world of a bridge *)

(** Object references. *)
Definition loc := nat.

(** The grammar's stack handle: an opaque reference, compared by
    identity. [INITIAL] is the grammar's starting stack. *)
Definition StateStack := nat.
Definition INITIAL : StateStack := 0.

(** A reference to a highlighting engine. *)
Definition HighlighterRef := nat.

(** Heap objects: Line States ([TokenizerState] instances, with their two
    fields), the [Map] objects holding a Scope-Color Index, and any other
    object the host may hand to [equals]. *)
Inductive Obj :=
| OTokenizerState (_ruleStack : StateStack) (highlighter : HighlighterRef)
| OMap (entries : gmap string string)
| OForeign.

(** The result of the grammar interpreter's [tokenizeLine2]: interleaved
    start offsets and metadata, the new stack, the early-stop flag. *)
Record TokenizeResult := mkTokenizeResult {
  res_tokens : list N;
  res_ruleStack : StateStack;
  stoppedEarly : bool
}.

(** The collaborators of the bridge, which it consumes as black boxes:
    the highlighting engine (loaded themes and languages, the colour table
    its [setTheme] returns, the grammar interpreter, the metadata decoder
    [StackElementMetadata.getForeground]) and the host editor (its known
    languages, and whether its own [setTheme] throws). *)
Record Collaborators := mkCollaborators {
  the_highlighter : HighlighterRef;
  getLoadedThemes : list string;
  getTheme : string -> Theme;
  getLoadedLanguages : list string;
  host_getLanguages : list string;
  colorMapOf : option string -> list string;
  tokenizeLine2 : string -> string -> StateStack -> N -> TokenizeResult;
  getForeground : N -> nat;
  host_setTheme_throws : string -> bool
}.

(** Calls that leave the bridge, in the order they are made. Lookups
    that only read the engine ([getLoadedThemes], [getTheme],
    [getLoadedLanguages], [getLanguage]) and the host ([getLanguages]) are
    not recorded. *)
Inductive Event :=
| EvDefineTheme (themeId : string) (theme : MonacoTheme)
| EvHostSetTheme (theme : string)
| EvSetTokensProvider (lang : string)
| EvEngineSetTheme (theme : option string)
| EvTokenizeLine2 (lang line : string) (ruleStack : StateStack) (timeLimit : N)
| EvWarn (message : string).

Record World := mkWorld {
  themeMap : gmap string MonacoTheme;   (* the closure's [themeMap] *)
  currentTheme : option string;         (* the closure's [currentTheme] *)
  engineTheme : option string;          (* the engine's active theme *)
  heap : gmap loc Obj;
  log : list Event                      (* oldest call first *)
}.

Definition set_themeMap (f : gmap string MonacoTheme -> gmap string MonacoTheme)
    (w : World) : World :=
  mkWorld (f (themeMap w)) (currentTheme w) (engineTheme w) (heap w) (log w).
Definition set_currentTheme (t : option string) (w : World) : World :=
  mkWorld (themeMap w) t (engineTheme w) (heap w) (log w).
Definition set_engineTheme (t : option string) (w : World) : World :=
  mkWorld (themeMap w) (currentTheme w) t (heap w) (log w).
Definition set_heap (f : gmap loc Obj -> gmap loc Obj) (w : World) : World :=
  mkWorld (themeMap w) (currentTheme w) (engineTheme w) (f (heap w)) (log w).
Definition add_log (e : Event) (w : World) : World :=
  mkWorld (themeMap w) (currentTheme w) (engineTheme w) (heap w) (log w ++ [e])%list.

(** ** The monad of bridge code: state, and exceptions that keep the state *)

Definition M (A : Type) : Type := World -> Outcome A * World.

Definition ret {A} (a : A) : M A := fun w => (Ok a, w).

Definition bind {A B} (m : M A) (k : A -> M B) : M B :=
  fun w =>
    match m w with
    | (Ok a, w') => k a w'
    | (Throw e, w') => (Throw e, w')
    end.

Definition throw {A} (e : Error) : M A := fun w => (Throw e, w).
Definition gets {A} (f : World -> A) : M A := fun w => (Ok (f w), w).
Definition modify (f : World -> World) : M unit := fun w => (Ok tt, f w).
Definition lift {A} (o : Outcome A) : M A := fun w => (o, w).

Declare Scope bridge_scope.
Delimit Scope bridge_scope with bridge.
Notation "'let*' x ':=' m 'in' k" := (bind m (fun x => k))
  (at level 10, x name, m at level 100, k at level 200) : bridge_scope.
Notation "'let*' ' p ':=' m 'in' k" := (bind m (fun x => match x with p => k end))
  (at level 10, p pattern, m at level 100, k at level 200) : bridge_scope.
Notation "m '>>' k" := (bind m (fun _ => k))
  (at level 100, k at level 200, right associativity) : bridge_scope.
Local Open Scope bridge_scope.

(** [for (const x of xs) body(x)]. *)
Fixpoint for_each {A} (xs : list A) (body : A -> M unit) : M unit :=
  match xs with
  | [] => ret tt
  | x :: rest => body x >> for_each rest body
  end.

(** ** Heap operations *)

(** [new C(...)]: a reference no object of the heap has. *)
Definition alloc (o : Obj) : M loc :=
  fun w =>
    let l := fresh (dom (heap w)) in
    (Ok l, set_heap (insert l o) w).

(** Reading the fields of a [TokenizerState]; on anything else the
    property access that follows throws. *)
Definition read_state (l : loc) : M (StateStack * HighlighterRef) :=
  fun w =>
    match heap w !! l with
    | Some (OTokenizerState rs hl) => (Ok (rs, hl), w)
    | _ => (Throw (TypeError "Cannot read properties of undefined"), w)
    end.

(** [o instanceof TokenizerState]. *)
Definition instanceof_TokenizerState (l : loc) : M bool :=
  gets (fun w => match heap w !! l with
                 | Some (OTokenizerState _ _) => true
                 | _ => false
                 end).

(** ** Line State: the class [TokenizerState] *)

Definition new_TokenizerState (ruleStack : StateStack) (hl : HighlighterRef)
    : M loc :=
  alloc (OTokenizerState ruleStack hl).

(** The getter [ruleStack]. *)
Definition ruleStack (this : loc) : M StateStack :=
  let* '(rs, _) := read_state this in ret rs.

Definition clone (this : loc) : M loc :=
  let* '(rs, hl) := read_state this in
  new_TokenizerState rs hl.

(** [equals(other)]; a falsy [other] ([null], [undefined]) is [None]. *)
Definition equals (this : loc) (other : option loc) : M bool :=
  match other with
  | None => ret false
  | Some o =>
      let* inst := instanceof_TokenizerState o in
      if negb inst then ret false
      else if negb (Nat.eqb o this) then ret false
      else
        let* other_ruleStack := ruleStack o in
        let* this_ruleStack := ruleStack this in
        if negb (Nat.eqb other_ruleStack this_ruleStack) then ret false
        else ret true
  end.

(** ** Calls to the collaborators *)

Section Bridge.

Variable C : Collaborators.

(** Modelled from the spec: the engine's set-active-theme operation
    ([highlighter.setTheme], in the engine's core package); it makes the
    given theme the engine's active one and returns the resolved color
    table. *)
Definition engine_setTheme (theme : option string) : M (list string) :=
  modify (fun w => add_log (EvEngineSetTheme theme) (set_engineTheme theme w)) >>
  ret (colorMapOf C theme).

(** [grammar.tokenizeLine2(line, ruleStack, timeLimit)] of the grammar
    of [lang]. *)
Definition grammar_tokenizeLine2 (lang line : string)
    (ruleStack : StateStack) (timeLimit : N) : M TokenizeResult :=
  modify (add_log (EvTokenizeLine2 lang line ruleStack timeLimit)) >>
  ret (tokenizeLine2 C lang line ruleStack timeLimit).

Definition console_warn (message : string) : M unit :=
  modify (add_log (EvWarn message)).

(** The host's own [monaco.editor.setTheme], bound as [_setTheme]. *)
Definition _setTheme (theme : string) : M unit :=
  modify (add_log (EvHostSetTheme theme)) >>
  if host_setTheme_throws C theme
  then throw (HostError "setTheme")
  else ret tt.

Definition host_defineTheme (themeId : string) (theme : MonacoTheme) : M unit :=
  modify (add_log (EvDefineTheme themeId theme)).

Definition host_setTokensProvider (lang : string) : M unit :=
  modify (add_log (EvSetTokensProvider lang)).

(** ** Active-Theme Tracker: the replacement of [monaco.editor.setTheme] *)

Definition setTheme (theme : string) : M unit :=
  _setTheme theme >>
  modify (set_currentTheme (Some theme)).

(** ** Tokenizer Bridge *)

Record Token := mkToken {
  startIndex : N;
  scopes : string
}.

Record LineTokens := mkLineTokens {
  endState : loc;
  tokens : list Token
}.

Definition tokenizeMaxLineLength : N := 20000.
Definition tokenizeTimeLimit : N := 500.

Definition getInitialState : M loc :=
  new_TokenizerState INITIAL (the_highlighter C).

(** The number of iterations of [for (j = 0; j < tokens.length / 2; j++)];
    the division is not an integer division. *)
Definition tokensLength (ts : list N) : nat := (length ts + 1) / 2.

(** [colorMap[i] || '']. *)
Definition colorMap_at (colorMap : list string) (i : nat) : string :=
  match colorMap !! i with
  | Some c => c
  | None => ""
  end.

(** The token loop. A metadata entry read past the end of the array is
    [undefined], which the bit operations of [getForeground] read as 0. *)
Definition bridge_tokens (colorMap : list string)
    (colorToScopeMap : gmap string string) (ts : list N) : list Token :=
  (fun j =>
     let startIndex := ts !!! (2 * j) in
     let metadata := default 0%N (ts !! (2 * j + 1)) in
     let color :=
       normalizeColor_string (colorMap_at colorMap (getForeground C metadata)) in
     mkToken startIndex (scope_of_color colorToScopeMap color))
  <$> seq 0 (tokensLength ts).

Definition warning_of (line : string) : string :=
  "Time limit reached when tokenizing line: " ++ JS.prefix 100 line.

(** [tokenize(line, state)]. Below the ceiling the grammar of [lang] is
    looked up first ([state.highlighter.getLanguage(lang)], a read of the
    engine that the log does not record). *)
Definition tokenize (lang line : string) (state : loc) : M LineTokens :=
  if (tokenizeMaxLineLength <=? JS.length line)%N then
    ret (mkLineTokens state [mkToken 0 ""])
  else
    let* '(state_ruleStack, state_highlighter) := read_state state in
    let* current := gets currentTheme in
    let* colorMap := engine_setTheme current in
    let* theme := gets (fun w => current ≫= fun id => themeMap w !! id) in
    let* result :=
      grammar_tokenizeLine2 lang line state_ruleStack tokenizeTimeLimit in
    (if stoppedEarly result then console_warn (warning_of line) else ret tt) >>
    let* colorToScopeMap := alloc (OMap ∅) in
    let* theme_rules :=
      match theme with
      | Some t => ret (rules t)
      | None => throw (TypeError "Cannot read properties of undefined (reading 'rules')")
      end in
    let index := build_index theme_rules in
    modify (set_heap (insert colorToScopeMap (OMap index))) >>
    let* endState :=
      new_TokenizerState (res_ruleStack result) state_highlighter in
    ret (mkLineTokens endState (bridge_tokens colorMap index (res_tokens result))).

(** The world a tokenize call on a short line leaves, up to the point
    where the rules of the active theme are read. *)
Definition after_interpreter (lang line : string) (rs : StateStack) (w : World)
    : World :=
  let cur := currentTheme w in
  let r := tokenizeLine2 C lang line rs tokenizeTimeLimit in
  let w1 := add_log (EvTokenizeLine2 lang line rs tokenizeTimeLimit)
              (add_log (EvEngineSetTheme cur) (set_engineTheme cur w)) in
  let w2 := if stoppedEarly r then add_log (EvWarn (warning_of line)) w1 else w1 in
  set_heap (insert (fresh (dom (heap w))) (OMap ∅)) w2.

(** ** Registration: [shikiToMonaco] *)

(** A call has a theme map of its own ([new Map()]) and a current theme
    of its own, which has no value before the themes are registered:
    nothing of an earlier registration is kept. *)
Definition new_bridge_state (w : World) : World :=
  set_currentTheme None (set_themeMap (fun _ => ∅) w).

Definition shikiToMonaco : M unit :=
  modify new_bridge_state >>
  let themeIds := getLoadedThemes C in
  for_each themeIds (fun themeId =>
    let* monacoTheme := lift (textmateThemeToMonacoTheme (getTheme C themeId)) in
    modify (set_themeMap (insert themeId monacoTheme)) >>
    host_defineTheme themeId monacoTheme) >>
  modify (set_currentTheme (head themeIds)) >>
  for_each (getLoadedLanguages C) (fun lang =>
    if bool_decide (lang ∈ host_getLanguages C)
    then host_setTokensProvider lang
    else ret tt).

End Bridge.

(** The world before registration. *)
Definition empty_world : World := mkWorld ∅ None None ∅ [].



(** ** A concrete bridge, on which the statements below are exercised *)

Module Demo.

(** A source-form theme in scope-settings form. *)
Definition dark_theme : Theme :=
  mkTheme None
    (Some [ mkThemeEntry (ScopeOne "comment") (Some (mkRawSettings (Some "#6A9955")));
            mkThemeEntry (ScopeMany ["string"; ""; "string.quoted"])
                         (Some (mkRawSettings (Some "#CE9")));
            mkThemeEntry ScopeAbsent (Some (mkRawSettings (Some "#D4D4D4")));
            mkThemeEntry (ScopeOne "emphasis") (Some (mkRawSettings None)) ])
    None
    (Some {[ "editor.background" := "#1E1E1E" ]})
    "dark".

(** A source-form theme with a pre-resolved rule list. *)
Definition light_theme : Theme :=
  mkTheme (Some [ mkRule "comment" (Some "008000");
                  mkRule "remark" (Some "#008000");
                  mkRule "plain" None ])
    None None None "light".

(** Themes the converter cannot read: no entry list at all, and an entry
    without its [settings] record. *)
Definition theme_without_settings : Theme :=
  mkTheme None None None None "dark".

Definition theme_with_bare_entry : Theme :=
  mkTheme None (Some [ mkThemeEntry (ScopeOne "comment") None ]) None None "dark".

(** The metadata layout of the grammar interpreter: nine foreground
    bits from bit 15. *)
Definition foreground_of (metadata : N) : nat :=
  N.to_nat (N.shiftr (N.land metadata 16744448) 15).

(** A grammar that reports one token per line, coloured by entry 2 of
    the colour table, and stops early on the line ["slow"]. *)
Definition grammar (lang line : string) (rs : StateStack) (limit : N)
    : TokenizeResult :=
  mkTokenizeResult [0%N; 65536%N] (S rs) (String.eqb line "slow").

Definition collaborators : Collaborators :=
  mkCollaborators 7
    ["light"; "dark"]
    (fun id => if String.eqb id "light" then light_theme else dark_theme)
    ["ts"; "rust"]
    ["ts"; "css"]
    (fun id => match id with
               | Some "light" => [""; "#000000"; "#008000"]
               | Some "dark" => [""; "#D4D4D4"; "#6A9955"]
               | _ => [""]
               end)
    grammar
    foreground_of
    (fun id => String.eqb id "broken").

(** The world after registration, with an initial Line State. *)
Definition registered : World := (shikiToMonaco collaborators empty_world).2.

Definition started : loc * World :=
  match getInitialState collaborators registered with
  | (Ok l, w) => (l, w)
  | (Throw _, w) => (0, w)
  end.

(** The host-form theme registered for ["dark"]. *)
Definition dark_monaco : MonacoTheme :=
  mkMonacoTheme vs_dark false {[ "editor.background" := "#1e1e1e" ]}
    [ mkRule "comment" (Some "6a9955");
      mkRule "string" (Some "ccee99");
      mkRule "string.quoted" (Some "ccee99") ].

(** The host-form theme registered for ["light"]: its rule list is the
    source theme's, as it is. *)
Definition light_monaco : MonacoTheme :=
  mkMonacoTheme vs false ∅
    [ mkRule "comment" (Some "008000");
      mkRule "remark" (Some "#008000");
      mkRule "plain" None ].

(** Two lines tokenized one after the other, with no theme switch in
    between. *)
Definition first_call : Outcome LineTokens * World :=
  tokenize collaborators "ts" "// hi" started.1 started.2.

Definition end_of (r : Outcome LineTokens * World) : loc :=
  match r.1 with
  | Ok lt => endState lt
  | Throw _ => started.1
  end.


(** The host is switched to one of its built-in themes, which the
    bridge has not registered. *)
Definition builtin_selected : World :=
  (setTheme collaborators "vs" started.2).2.

(** A line at the length ceiling. *)
Definition long_line : string :=
  string_of_list_ascii (repeat "x"%char (N.to_nat 20000)).

(** The rule list of the first-match-wins example. *)
Definition shared_color_rules : list Rule :=
  [ mkRule "a" (Some "f00"); mkRule "b" (Some "f00") ].

(** Rules of one colour written in three ways, after a rule without
    foreground. *)
Definition mixed_rules : list Rule :=
  [ mkRule "x" None; mkRule "a" (Some "f00"); mkRule "b" (Some "#F00") ].

(** Two rules whose normalized colour is the empty string. *)
Definition empty_color_rules : list Rule :=
  [ mkRule "a" (Some ""); mkRule "b" (Some "") ].

End Demo.

(** ** Auxiliary notions for the properties of the bridge *)

(** Hexadecimal digits of either case. *)
Definition is_hex (c : ascii) : bool :=
  let n := N_of_ascii c in
  ((48 <=? n)%N && (n <=? 57)%N)
  || ((65 <=? n)%N && (n <=? 70)%N)
  || ((97 <=? n)%N && (n <=? 102)%N).

(** The entries at even positions of an interleaved token array: the
    start offsets. *)
Fixpoint even_entries (ts : list N) : list N :=
  match ts with
  | [] => []
  | s :: rest =>
      s :: match rest with
           | [] => []
           | _ :: rest' => even_entries rest'
           end
  end.

(** The [defineTheme] calls of a registration whose themes all convert. *)
Definition define_events (C : Collaborators) (themeIds : list string)
    : list Event :=
  omap (fun themeId =>
          match textmateThemeToMonacoTheme (getTheme C themeId) with
          | Ok monacoTheme => Some (EvDefineTheme themeId monacoTheme)
          | Throw _ => None
          end) themeIds.

(** The [setTokensProvider] calls of a registration: one per loaded
    language the host knows, in the order of the loaded languages. *)
Definition provider_events (C : Collaborators) : list Event :=
  EvSetTokensProvider
    <$> List.filter (fun lang => bool_decide (lang ∈ host_getLanguages C))
          (getLoadedLanguages C).

(** The calls a [tokenize] call on a line below the ceiling makes. *)
Definition tokenize_events (C : Collaborators) (lang line : string)
    (rs : StateStack) (current : option string) : list Event :=
  [ EvEngineSetTheme current; EvTokenizeLine2 lang line rs 500 ]
  ++ (if stoppedEarly (tokenizeLine2 C lang line rs 500)
      then [ EvWarn (warning_of line) ] else [])%list.

(** The scope a token is to carry, from the rule list itself: the colour
    of the metadata in the colour table (empty when the table has no such
    entry), normalized, and the token of the first rule whose normalized
    foreground is that colour; empty when the colour is empty or no rule
    has it. *)
Definition expected_scope (C : Collaborators) (colorMap : list string)
    (rules : list Rule) (metadata : N) : string :=
  let color :=
    normalizeColor_string (default "" (colorMap !! getForeground C metadata)) in
  if JS.truthy color
  then match first_rule_of_color color rules with
       | Some r => token r
       | None => ""
       end
  else "".

(** The tokens a rule list, a colour table and an interleaved token array
    determine: one per start offset. *)
Definition expected_token (C : Collaborators) (colorMap : list string)
    (rules : list Rule) (ts : list N) (j : nat) : option Token :=
  match ts !! (2 * j) with
  | Some s =>
      Some (mkToken s (expected_scope C colorMap rules
                         (default 0%N (ts !! (2 * j + 1)))))
  | None => None
  end.

(** The bodies of the two loops of [shikiToMonaco]. *)
Definition register_theme (C : Collaborators) (themeId : string) : M unit :=
  let* monacoTheme := lift (textmateThemeToMonacoTheme (getTheme C themeId)) in
  modify (set_themeMap (insert themeId monacoTheme)) >>
  host_defineTheme themeId monacoTheme.

Definition register_language (C : Collaborators) (lang : string) : M unit :=
  if bool_decide (lang ∈ host_getLanguages C)
  then host_setTokensProvider lang
  else ret tt.

(** What a reference holds when it is no Line State: nothing, or an
    object that is not a [TokenizerState]. *)
Definition not_a_state (o : option Obj) : Prop :=
  match o with
  | Some (OTokenizerState _ _) => False
  | _ => True
  end.

(** Further bridges on which the statements are exercised. *)
Module Scenario.

(** An engine with no theme loaded. *)
Definition no_themes : Collaborators :=
  mkCollaborators 7 [] (fun _ => Demo.dark_theme) ["ts"] ["ts"]
    (fun _ => [""]) Demo.grammar Demo.foreground_of (fun _ => false).

(** An engine whose second theme has an entry without [settings]. *)
Definition bad_second_theme : Collaborators :=
  mkCollaborators 7 ["light"; "bad"; "dark"]
    (fun id => if String.eqb id "light" then Demo.light_theme
               else if String.eqb id "bad" then Demo.theme_with_bare_entry
               else Demo.dark_theme)
    ["ts"] ["ts"]
    (fun _ => [""]) Demo.grammar Demo.foreground_of (fun _ => false).

(** A grammar whose stack does not change from line to line. *)
Definition steady_grammar (lang line : string) (rs : StateStack) (limit : N)
    : TokenizeResult :=
  mkTokenizeResult [0%N; 65536%N; 3%N; 32768%N; 5%N] rs false.

Definition steady : Collaborators :=
  mkCollaborators 7 ["light"; "dark"]
    (fun id => if String.eqb id "light" then Demo.light_theme else Demo.dark_theme)
    ["ts"] ["ts"]
    (fun id => match id with
               | Some "light" => [""; "#000000"; "#008000"]
               | Some "dark" => [""; "#D4D4D4"; "#6A9955"]
               | _ => [""]
               end)
    steady_grammar Demo.foreground_of (fun _ => false).

(** An engine whose two themes colour the same token differently: entry
    2 of the colour table is the comment colour of ["light"] and the
    string colour of ["dark"]. *)
Definition two_tone : Collaborators :=
  mkCollaborators 7 ["light"; "dark"]
    (fun id => if String.eqb id "light" then Demo.light_theme else Demo.dark_theme)
    ["ts"] ["ts"]
    (fun id => match id with
               | Some "light" => [""; "#000000"; "#008000"]
               | Some "dark" => [""; "#D4D4D4"; "#CE9"]
               | _ => [""]
               end)
    Demo.grammar Demo.foreground_of (fun _ => false).

Definition two_tone_started : loc * World :=
  match getInitialState two_tone (shikiToMonaco two_tone empty_world).2 with
  | (Ok l, w) => (l, w)
  | (Throw _, w) => (0, w)
  end.

(** A theme whose only entry has no [settings] and an empty scope
    array. *)
Definition theme_with_scopeless_entry : Theme :=
  mkTheme None (Some [ mkThemeEntry (ScopeMany []) None ]) None None "dark".

(** A heap holding a Line State at 0 and a foreign object at 1. *)
Definition mixed_heap_world : World :=
  mkWorld (themeMap Demo.registered) (Some "light") None
    (<[1 := OForeign]> (<[0 := OTokenizerState 4 7]> ∅)) [].

(** A colour table in short, long and marked spellings. *)
Definition colour_table_theme : Theme :=
  mkTheme None (Some []) None
    (Some (<["a" := "#FFF"]> (<["b" := "1e1e1e"]> (<["c" := "#AbCd"]> ∅))))
    "light".

End Scenario.

(** * Properties *)

(** ** Color Normalizer *)

Section NormalizerFacts.

Lemma lower_ascii_idem (c : ascii) :
  JS.lower_ascii (JS.lower_ascii c) = JS.lower_ascii c.
Proof. destruct c as [[] [] [] [] [] [] [] []]; reflexivity. Qed.

Lemma lower_hex_fixed (c : ascii) :
  is_lower_hex c = true -> JS.lower_ascii c = c /\ Ascii.eqb c "#" = false.
Proof. destruct c as [[] [] [] [] [] [] [] []]; cbv; intuition congruence. Qed.

Lemma toLowerCase_idem (s : string) :
  JS.toLowerCase (JS.toLowerCase s) = JS.toLowerCase s.
Proof. induction s as [|c s IH]; simpl; [done|]. by rewrite lower_ascii_idem, IH. Qed.

Lemma toLowerCase_length (s : string) :
  JS.length (JS.toLowerCase s) = JS.length s.
Proof.
  unfold JS.length. f_equal.
  induction s as [|c s IH]; simpl; [done|]. by rewrite IH.
Qed.

Lemma double_chars_length (s : string) :
  JS.length (JS.double_chars s) = (2 * JS.length s)%N.
Proof.
  unfold JS.length.
  induction s as [|c s IH]; simpl String.length; [done|]. lia.
Qed.

Lemma replace_first_absent (s : string) :
  count_char "#" s = 0 -> JS.replace_first "#" s = s.
Proof.
  induction s as [|c s IH]; simpl; [done|].
  destruct (Ascii.eqb c "#"); simpl; [discriminate|].
  intros H. by rewrite IH.
Qed.

Lemma lower_hex_string_fixed (s : string) :
  all_chars is_lower_hex s = true ->
  JS.toLowerCase s = s /\ count_char "#" s = 0.
Proof.
  induction s as [|c s IH]; simpl; [done|].
  intros [Hc Hs]%andb_prop.
  destruct (lower_hex_fixed c Hc) as [-> ->], (IH Hs) as [-> ->]. done.
Qed.

(** The test [!color] needs no case of its own: the empty string goes
    through the three steps unchanged. *)
Lemma normalizeColor_string_steps (s : string) :
  normalizeColor_string s
  = expand_short (JS.toLowerCase (JS.replace_first "#" s)).
Proof. destruct s; reflexivity. Qed.

(** A string without marker and without capitals, whose length is
    neither 3 nor 4, is a fixed point. *)
Lemma normalizeColor_string_fixed (s : string) :
  count_char "#" s = 0 ->
  JS.toLowerCase s = s ->
  JS.length s <> 3%N -> JS.length s <> 4%N ->
  normalizeColor_string s = s.
Proof.
  intros Hm Hl H3 H4.
  rewrite normalizeColor_string_steps, replace_first_absent, Hl by done.
  unfold expand_short.
  destruct (N.eqb_spec (JS.length s) 3), (N.eqb_spec (JS.length s) 4); done.
Qed.

Lemma replace_first_leading (s : string) :
  marker_only_leading s = true ->
  JS.replace_first "#" s = strip_leading_marker s.
Proof.
  destruct s as [|c s]; simpl; [done|].
  intros H%Nat.eqb_eq.
  destruct (Ascii.eqb c "#"); [done|]. by rewrite replace_first_absent.
Qed.

Lemma count_char_lower (s : string) :
  count_char "#" (JS.toLowerCase s) = count_char "#" s.
Proof.
  induction s as [|c s IH]; simpl; [done|]. rewrite IH. f_equal.
  destruct c as [[] [] [] [] [] [] [] []]; reflexivity.
Qed.

Lemma count_char_double (s : string) :
  count_char "#" (JS.double_chars s) = 2 * count_char "#" s.
Proof.
  induction s as [|c s IH]; simpl; [done|]. rewrite IH.
  destruct (Ascii.eqb c "#"); lia.
Qed.

Lemma count_char_replace_first (s : string) :
  count_char "#" (JS.replace_first "#" s) = pred (count_char "#" s).
Proof.
  induction s as [|c s IH]; simpl; [done|].
  destruct (Ascii.eqb c "#") eqn:E; simpl; [done|]. by rewrite E, IH.
Qed.

Lemma toLowerCase_double (s : string) :
  JS.toLowerCase (JS.double_chars s) = JS.double_chars (JS.toLowerCase s).
Proof. induction s as [|c s IH]; simpl; [done|]. by rewrite IH. Qed.

(** Normalizing twice is normalizing once, on every string with at most
    one marker. *)
Lemma normalizeColor_string_twice (s : string) :
  count_char "#" s <= 1 ->
  normalizeColor_string (normalizeColor_string s) = normalizeColor_string s.
Proof.
  intros Hm. apply normalizeColor_string_fixed;
    rewrite normalizeColor_string_steps; unfold expand_short;
    set (c := JS.toLowerCase (JS.replace_first "#" s));
    assert (Hc : count_char "#" c = 0)
      by (unfold c; rewrite count_char_lower, count_char_replace_first; lia);
    assert (Hl : JS.toLowerCase c = c) by apply toLowerCase_idem;
    destruct (N.eqb_spec (JS.length c) 3), (N.eqb_spec (JS.length c) 4);
    simpl; rewrite ?count_char_double, ?toLowerCase_double, ?double_chars_length,
             ?Hl, ?Hc; try done; lia.
Qed.

End NormalizerFacts.

Example normalizeColor_FFF :
  normalizeColor (Some "#FFF") = Some "ffffff".
Proof. reflexivity. Qed.

Example normalizeColor_alpha :
  normalizeColor (Some "#AbC8") = Some "aabbcc88".
Proof. reflexivity. Qed.

(** Normalizing is not idempotent on strings with several markers. *)
Example normalizeColor_two_markers :
  normalizeColor (Some "##abc") = Some "##aabbcc"
  /\ normalizeColor (Some "##aabbcc") = Some "#aabbcc".
Proof. split; reflexivity. Qed.

(** C4, as stated, fails: the normalizer does not strip only a leading
    marker. On ["a#bc"], which has no leading marker, stripping a leading
    marker, lowercasing and expanding gives ["aa##bbcc"], while
    [normalizeColor] removes the inner marker and returns ["aabbcc"]. *)
Lemma normalizeColor_strips_inner_marker :
  normalizeColor (Some "a#bc") = Some "aabbcc"
  /\ spec_normalize "a#bc" = "aa##bbcc"
  /\ normalizeColor (Some "a#bc") <> Some (spec_normalize "a#bc").
Proof. repeat split; [reflexivity .. | discriminate]. Qed.

(** C4, amended: [normalizeColor] leaves every string in normalized form
    (six or eight lowercase hexadecimal digits) unchanged; ["#FFF"] and
    ["ffffff"] normalize to the same string; an absent value stays absent;
    on every present string it removes the first occurrence of the marker,
    wherever it is, lowercases, and duplicates each character of a result
    of length 3 or 4, to length 6 or 8; where the marker occurs nowhere
    past the first character this is stripping the leading marker. *)
Theorem normalizeColor_contract :
  (forall s, normalized_form s = true -> normalizeColor (Some s) = Some s)
  /\ normalizeColor (Some "#FFF") = normalizeColor (Some "ffffff")
  /\ normalizeColor None = None
  /\ (forall s, normalizeColor (Some s)
                = Some (expand_short (JS.toLowerCase (JS.replace_first "#" s))))
  /\ (forall c, (JS.length c = 3%N -> JS.length (expand_short c) = 6%N)
                /\ (JS.length c = 4%N -> JS.length (expand_short c) = 8%N)
                /\ (JS.length c <> 3%N -> JS.length c <> 4%N -> expand_short c = c))
  /\ (forall s, marker_only_leading s = true ->
                normalizeColor (Some s) = Some (spec_normalize s)).
Proof.
  repeat apply conj; try reflexivity.
  - intros s [Hh Hlen]%andb_prop. simpl. f_equal.
    destruct (lower_hex_string_fixed s Hh) as [Hl Hm].
    apply normalizeColor_string_fixed; try done;
      intros E; rewrite E in Hlen; discriminate.
  - intros s. simpl. by rewrite normalizeColor_string_steps.
  - intros c. unfold expand_short. repeat apply conj.
    + intros E. rewrite E. simpl. by rewrite double_chars_length, E.
    + intros E. rewrite E. simpl. by rewrite double_chars_length, E.
    + intros H3 H4.
      destruct (N.eqb_spec (JS.length c) 3), (N.eqb_spec (JS.length c) 4); done.
  - intros s H. simpl. f_equal.
    rewrite normalizeColor_string_steps, replace_first_leading by done. done.
Qed.

Lemma normalizeColor_contract_witness :
  normalized_form "6a9955" = true
  /\ normalizeColor (Some "6a9955") = Some "6a9955"
  /\ marker_only_leading "#CE9" = true
  /\ normalizeColor (Some "#CE9") = Some (spec_normalize "#CE9").
Proof.
  repeat apply conj.
  - reflexivity.
  - apply (proj1 normalizeColor_contract "6a9955"). reflexivity.
  - reflexivity.
  - apply (proj2 (proj2 (proj2 (proj2 (proj2 normalizeColor_contract)))) "#CE9").
    reflexivity.
Defined.

(** ** Scope-Color Index *)

Section IndexFacts.

Implicit Types (m : gmap string string) (r : Rule) (rs : list Rule).

Lemma scope_of_color_lookup m (c : string) :
  scope_of_color m c = default "" (m !! c).
Proof. unfold scope_of_color. destruct (m !! c) as [[|a s]|]; reflexivity. Qed.

(** A key of the index is never overwritten. *)
Lemma index_step_keeps m r (k v : string) :
  m !! k = Some v -> index_step m r !! k = Some v.
Proof.
  intros Hk. unfold index_step.
  destruct (normalizeColor (foreground r)) as [c|]; [|done].
  destruct (JS.truthy c); simpl; [|done].
  case_bool_decide as Hc; simpl; [done|].
  rewrite lookup_insert_ne; [done|].
  intros ->. apply Hc. eauto.
Qed.

(** A rule of another colour leaves the entry of [c] as it is. *)
Lemma index_step_other m r (c : string) :
  normalizeColor (foreground r) <> Some c ->
  index_step m r !! c = m !! c.
Proof.
  intros Hne. unfold index_step.
  destruct (normalizeColor (foreground r)) as [c'|]; [|done].
  destruct (JS.truthy c' && _); [|done].
  rewrite lookup_insert_ne; [done|]. congruence.
Qed.

(** A rule of colour [c] claims a free, non-empty key [c]. *)
Lemma index_step_claims m r (c : string) :
  normalizeColor (foreground r) = Some c ->
  JS.truthy c = true -> m !! c = None ->
  index_step m r !! c = Some (token r).
Proof.
  intros Hc Ht Hfree. unfold index_step. rewrite Hc, Ht. simpl.
  rewrite bool_decide_false by (rewrite Hfree; by intros [? ?]).
  simpl. apply lookup_insert_eq.
Qed.

Lemma index_step_empty_key m r :
  index_step m r !! "" = m !! "".
Proof.
  unfold index_step.
  destruct (normalizeColor (foreground r)) as [[|a c]|]; simpl; [done| |done].
  case_bool_decide; simpl; [done|]. by rewrite lookup_insert_ne.
Qed.

Lemma foldl_index_step_lookup rs m (c : string) :
  JS.truthy c = true ->
  foldl index_step m rs !! c
  = match m !! c with
    | Some t => Some t
    | None => token <$> first_rule_of_color c rs
    end.
Proof.
  intros Ht. revert m.
  induction rs as [|r rs IH]; intros m; simpl.
  { by destruct (m !! c). }
  rewrite IH. case_bool_decide as Hr.
  - destruct (m !! c) as [t|] eqn:Hm.
    + by rewrite (index_step_keeps m r c t).
    + by rewrite (index_step_claims m r c).
  - by rewrite index_step_other.
Qed.

Lemma foldl_index_step_empty_key rs m :
  foldl index_step m rs !! "" = m !! "".
Proof.
  revert m. induction rs as [|r rs IH]; intros m; simpl; [done|].
  by rewrite IH, index_step_empty_key.
Qed.

Lemma first_rule_of_color_app (c : string) (l1 l2 : list Rule) r :
  Forall (fun r' => normalizeColor (foreground r') <> Some c) l1 ->
  normalizeColor (foreground r) = Some c ->
  first_rule_of_color c (l1 ++ r :: l2)%list = Some r.
Proof.
  intros Hl1 Hr. unfold first_rule_of_color.
  induction Hl1 as [|r' l1 Hr' _ IH]; simpl.
  - by rewrite bool_decide_true.
  - by rewrite bool_decide_false.
Qed.

End IndexFacts.

(** The index of the demo theme maps each colour to its first scope. *)
Example build_index_demo :
  map_to_list (build_index
    [ mkRule "comment" (Some "6a9955"); mkRule "string" (Some "ccee99");
      mkRule "string.quoted" (Some "ccee99"); mkRule "plain" None ])
  ≡ₚ [("6a9955", "comment"); ("ccee99", "string")].
Proof. vm_compute. apply perm_swap. Qed.

(** The example of the specification: the second rule is shadowed. *)
Example first_match_example :
  build_index Demo.shared_color_rules !! "ff0000" = Some "a"
  /\ size (build_index Demo.shared_color_rules) = 1.
Proof. split; reflexivity. Qed.

(** C2, as stated, fails: two rules that share the empty normalized
    colour are both left out of the index, so the earlier rule's token
    does not win; the lookup of that colour gives the empty scope. *)
Lemma empty_color_never_indexed :
  Demo.empty_color_rules = [ mkRule "a" (Some ""); mkRule "b" (Some "") ]
  /\ normalizeColor (foreground (mkRule "a" (Some ""))) = Some ""
  /\ normalizeColor (foreground (mkRule "b" (Some ""))) = Some ""
  /\ build_index Demo.empty_color_rules !! "" = None
  /\ scope_of_color (build_index Demo.empty_color_rules) "" = ""
  /\ scope_of_color (build_index Demo.empty_color_rules) "" <> "a".
Proof. repeat split; discriminate. Qed.

(** C2, amended: the index is built by iterating the rules in order; a
    key already present is never overwritten, and a rule is recorded only
    under a present, non-empty normalized foreground. So for every rule
    list and every non-empty colour [c], the lookup of [c] yields the token
    of the first rule whose normalized foreground is [c], whatever rules
    of the same colour follow; the empty colour is never a key; a colour
    with no entry yields the empty scope; and for the rules
    [{token:"a",foreground:"f00"}], [{token:"b",foreground:"f00"}] the
    lookup of normalized ["f00"] yields ["a"]. *)
Theorem scope_color_index_first_wins (rs : list Rule) (c : string) :
  (forall m r k v, m !! k = Some v -> index_step m r !! k = Some v)
  /\ (JS.truthy c = true ->
      build_index rs !! c = token <$> first_rule_of_color c rs)
  /\ (forall l1 r1 l2,
        rs = (l1 ++ r1 :: l2)%list ->
        JS.truthy c = true ->
        normalizeColor (foreground r1) = Some c ->
        Forall (fun r => normalizeColor (foreground r) <> Some c) l1 ->
        scope_of_color (build_index rs) c = token r1)
  /\ build_index rs !! "" = None
  /\ (build_index rs !! c = None -> scope_of_color (build_index rs) c = "")
  /\ scope_of_color
       (build_index [ mkRule "a" (Some "f00"); mkRule "b" (Some "f00") ])
       (normalizeColor_string "f00") = "a".
Proof.
  repeat apply conj.
  - intros m r k v. apply index_step_keeps.
  - intros Ht. unfold build_index. by rewrite foldl_index_step_lookup.
  - intros l1 r1 l2 -> Ht Hc Hl1.
    rewrite scope_of_color_lookup. unfold build_index.
    rewrite foldl_index_step_lookup by done.
    rewrite lookup_empty, (first_rule_of_color_app c l1 l2 r1) by done. done.
  - unfold build_index. by rewrite foldl_index_step_empty_key.
  - intros Hnone. rewrite scope_of_color_lookup. by rewrite Hnone.
  - reflexivity.
Qed.

Lemma scope_color_index_first_wins_witness :
  build_index Demo.mixed_rules !! "ff0000" = Some "a"
  /\ scope_of_color (build_index Demo.mixed_rules) "ff0000" = "a"
  /\ scope_of_color (build_index Demo.mixed_rules) "00ff00" = "".
Proof.
  repeat apply conj.
  - apply (proj1 (proj2 (scope_color_index_first_wins Demo.mixed_rules "ff0000"))).
    reflexivity.
  - apply (proj1 (proj2 (proj2 (scope_color_index_first_wins Demo.mixed_rules "ff0000")))
             [mkRule "x" None] (mkRule "a" (Some "f00")) [mkRule "b" (Some "#F00")]).
    + reflexivity.
    + reflexivity.
    + reflexivity.
    + repeat constructor. discriminate.
  - apply (proj1 (proj2 (proj2 (proj2 (proj2
             (scope_color_index_first_wins Demo.mixed_rules "00ff00")))))).
    reflexivity.
Defined.

(** ** Running bridge code *)

Section RunFacts.

Variable C : Collaborators.

Lemma bind_ok {A B} (m : M A) (k : A -> M B) (w w' : World) (a : A) :
  m w = (Ok a, w') -> bind m k w = k a w'.
Proof. intros H. unfold bind. by rewrite H. Qed.

Lemma bind_throw {A B} (m : M A) (k : A -> M B) (w w' : World) (e : Error) :
  m w = (Throw e, w') -> bind m k w = (Throw e, w').
Proof. intros H. unfold bind. by rewrite H. Qed.

Lemma read_state_ok (l : loc) (w : World) rs hl :
  heap w !! l = Some (OTokenizerState rs hl) ->
  read_state l w = (Ok (rs, hl), w).
Proof. intros H. unfold read_state. by rewrite H. Qed.

Lemma alloc_fresh (w : World) :
  heap w !! fresh (dom (heap w)) = None.
Proof. apply not_elem_of_dom, is_fresh. Qed.

Lemma tokenize_short (lang line : string) (state : loc) (w : World) rs hl :
  (JS.length line < tokenizeMaxLineLength)%N ->
  heap w !! state = Some (OTokenizerState rs hl) ->
  tokenize C lang line state w
  = let r := tokenizeLine2 C lang line rs tokenizeTimeLimit in
    let m := fresh (dom (heap w)) in
    let w3 := after_interpreter C lang line rs w in
    match currentTheme w ≫= fun id => themeMap w !! id with
    | None =>
        (Throw (TypeError "Cannot read properties of undefined (reading 'rules')"), w3)
    | Some th =>
        let index := build_index (rules th) in
        let w4 := set_heap (insert m (OMap index)) w3 in
        let e := fresh (dom (heap w4)) in
        (Ok (mkLineTokens e
               (bridge_tokens C (colorMapOf C (currentTheme w)) index (res_tokens r))),
         set_heap (insert e (OTokenizerState (res_ruleStack r) hl)) w4)
    end.
Proof.
  intros Hlen Hst. unfold tokenize.
  destruct (N.leb_spec tokenizeMaxLineLength (JS.length line)); [lia|].
  rewrite (bind_ok _ _ _ _ _ (read_state_ok state w rs hl Hst)).
  unfold after_interpreter, bind, gets, engine_setTheme, grammar_tokenizeLine2,
    console_warn, modify, ret, bind, alloc, new_TokenizerState, alloc, throw.
  simpl.
  destruct (stoppedEarly (tokenizeLine2 C lang line rs tokenizeTimeLimit));
    simpl; destruct (currentTheme w ≫= _); reflexivity.
Qed.

End RunFacts.

(** ** Tokenizer Bridge: the line-length guard *)

Example long_line_length : JS.length Demo.long_line = 20000%N.
Proof. vm_compute. reflexivity. Qed.

(** C1: for every line whose length is at or above 20000, [tokenize]
    returns exactly one token, with start index 0 and the empty scope,
    returns the state it was given as end state, and leaves the world as
    it was: no call is logged, so the grammar interpreter's
    [tokenizeLine2] is not invoked, and nothing is allocated. *)
Theorem tokenize_long_line (C : Collaborators) (lang line : string)
    (state : loc) (w : World) :
  (20000 <= JS.length line)%N ->
  tokenize C lang line state w = (Ok (mkLineTokens state [mkToken 0 ""]), w).
Proof.
  intros Hlen. unfold tokenize, tokenizeMaxLineLength.
  destruct (N.leb_spec 20000 (JS.length line)); [done|lia].
Qed.

Lemma tokenize_long_line_witness :
  (20000 <= JS.length Demo.long_line)%N
  /\ tokenize Demo.collaborators "ts" Demo.long_line Demo.started.1 Demo.started.2
     = (Ok (mkLineTokens Demo.started.1 [mkToken 0 ""]), Demo.started.2).
Proof.
  split.
  - vm_compute. discriminate.
  - apply (tokenize_long_line Demo.collaborators "ts" Demo.long_line
             Demo.started.1 Demo.started.2).
    vm_compute. discriminate.
Defined.

(** ** Heap facts for the tokenizer *)

Section HeapFacts.

Implicit Types (h : gmap loc Obj).



Lemma fresh_after_insert h (l : loc) (o : Obj) :
  let e := fresh (dom (<[l := o]> h)) in
  e <> l /\ h !! e = None /\ <[l := o]> h !! e = None.
Proof.
  intros e.
  assert (He : e ∉ dom (<[l := o]> h)) by apply is_fresh.
  rewrite dom_insert_L in He.
  assert (e <> l) by set_solver.
  assert (h !! e = None) by (apply not_elem_of_dom; set_solver).
  by rewrite lookup_insert_ne.
Qed.

End HeapFacts.

(** What a tokenize call on a line below the ceiling does when the Line
    State is valid and the active theme has a host-form theme. *)
Lemma tokenize_registered (C : Collaborators) (lang line : string)
    (state : loc) (w : World) rs hl th :
  (JS.length line < 20000)%N ->
  heap w !! state = Some (OTokenizerState rs hl) ->
  (currentTheme w ≫= fun id => themeMap w !! id) = Some th ->
  let r := tokenizeLine2 C lang line rs 500 in
  let index := build_index (rules th) in
  let m := fresh (dom (heap w)) in
  let e := fresh (dom (<[m := OMap index]> (heap w))) in
  tokenize C lang line state w
  = (Ok (mkLineTokens e
           (bridge_tokens C (colorMapOf C (currentTheme w)) index (res_tokens r))),
     mkWorld (themeMap w) (currentTheme w) (currentTheme w)
       (<[e := OTokenizerState (res_ruleStack r) hl]> (<[m := OMap index]> (heap w)))
       (log w ++ [EvEngineSetTheme (currentTheme w);
                  EvTokenizeLine2 lang line rs 500]
              ++ (if stoppedEarly r then [EvWarn (warning_of line)] else []))%list).
Proof.
  intros Hlen Hst Hth r index m e. subst r index m e.
  rewrite (tokenize_short C lang line state w rs hl Hlen Hst), Hth.
  unfold after_interpreter, tokenizeTimeLimit.
  destruct (stoppedEarly (tokenizeLine2 C lang line rs 500)); simpl;
    unfold set_heap, add_log, set_engineTheme; simpl;
    rewrite insert_insert_eq, <- ?app_assoc; reflexivity.
Qed.

Example registered_themes :
  themeMap Demo.registered !! "dark" = Some Demo.dark_monaco
  /\ themeMap Demo.registered !! "light" = Some Demo.light_monaco
  /\ currentTheme Demo.registered = Some "light".
Proof. vm_compute. done. Qed.

Example registered_log :
  log Demo.registered
  = [ EvDefineTheme "light" Demo.light_monaco;
      EvDefineTheme "dark" Demo.dark_monaco;
      EvSetTokensProvider "ts" ].
Proof. vm_compute. reflexivity. Qed.

(** The end-to-end scenario: a comment line under a theme whose rule for
    ["comment"] has the colour the grammar resolves to. *)
Example tokenize_comment_line :
  (Demo.first_call).1
  = Ok (mkLineTokens 2 [mkToken 0 "comment"]).
Proof. vm_compute. reflexivity. Qed.

(** ** Tokenizer Bridge: early stop *)

Lemma bridge_tokens_length (C : Collaborators) colorMap idx (ts : list N) :
  length (bridge_tokens C colorMap idx ts) = tokensLength ts.
Proof. unfold bridge_tokens. by rewrite length_fmap, length_seq. Qed.

(** Every start offset the token loop reads is in the array. *)
Lemma bridge_tokens_in_range (ts : list N) (j : nat) :
  j < tokensLength ts -> is_Some (ts !! (2 * j)).
Proof.
  unfold tokensLength. intros Hj. apply lookup_lt_is_Some.
  assert (2 * ((length ts + 1) / 2) <= length ts + 1)
    by (apply Nat.Div0.mul_div_le).
  lia.
Qed.

(** ** Scope-Color Index: when it is built *)




(** ** The engine's active theme *)

(** C10: every [tokenize] call on a line below the ceiling (with a valid
    Line State) calls the engine's set-active-theme operation with the
    recorded theme identifier and leaves that identifier as the engine's
    active theme, whatever the engine's active theme was before and
    whether or not the call then completes. The recorded identifier and
    the Line State are as before, so the next call does the same. *)
Theorem tokenize_sets_engine_theme (C : Collaborators) (lang line : string)
    (state : loc) (w : World) rs hl :
  (JS.length line < 20000)%N ->
  heap w !! state = Some (OTokenizerState rs hl) ->
  exists rest,
    log (tokenize C lang line state w).2
    = (log w ++ EvEngineSetTheme (currentTheme w) :: rest)%list
    /\ engineTheme (tokenize C lang line state w).2 = currentTheme w
    /\ currentTheme (tokenize C lang line state w).2 = currentTheme w
    /\ heap (tokenize C lang line state w).2 !! state
       = Some (OTokenizerState rs hl).
Proof.
  intros Hlen Hst.
  rewrite (tokenize_short C lang line state w rs hl Hlen Hst).
  pose proof (alloc_fresh w) as Hm.
  assert (Hsm : fresh (dom (heap w)) <> state) by (intros E; congruence).
  unfold after_interpreter.
  destruct (currentTheme w ≫= _) as [th|];
    destruct (stoppedEarly _); simpl; eexists;
    (split; [rewrite <- ?app_assoc; reflexivity|]);
    repeat apply conj; try reflexivity;
    rewrite ?insert_insert_eq.
  all: try (rewrite lookup_insert_ne; [by rewrite lookup_insert_ne|];
            match goal with
            | |- fresh (dom (<[?l := ?o]> ?h)) <> _ =>
                destruct (fresh_after_insert h l o) as (_ & He & _);
                intros E; congruence
            end).
  all: by rewrite lookup_insert_ne.
Qed.

Lemma tokenize_sets_engine_theme_witness :
  engineTheme (Demo.first_call).2 = currentTheme (Demo.first_call).2
  /\ exists rest,
      log (tokenize Demo.collaborators "ts" "let x" Demo.started.1 (Demo.first_call).2).2
      = (log (Demo.first_call).2
         ++ EvEngineSetTheme (currentTheme (Demo.first_call).2) :: rest)%list
      /\ engineTheme
           (tokenize Demo.collaborators "ts" "let x" Demo.started.1 (Demo.first_call).2).2
         = currentTheme (Demo.first_call).2
      /\ currentTheme
           (tokenize Demo.collaborators "ts" "let x" Demo.started.1 (Demo.first_call).2).2
         = currentTheme (Demo.first_call).2
      /\ heap (tokenize Demo.collaborators "ts" "let x" Demo.started.1 (Demo.first_call).2).2
           !! Demo.started.1
         = Some (OTokenizerState 0 7).
Proof.
  split; [reflexivity|].
  apply (tokenize_sets_engine_theme Demo.collaborators "ts" "let x"
           Demo.started.1 (Demo.first_call).2 0 7).
  - vm_compute. reflexivity.
  - vm_compute. reflexivity.
Defined.

(** ** Theme Converter *)

Section ConverterFacts.

Lemma push_scopes_app (fg : option string) (scopes : list (option string))
    (acc : list Rule) :
  push_scopes fg scopes acc
  = (acc ++ push_scopes fg scopes [])%list.
Proof.
  unfold push_scopes. revert acc.
  induction scopes as [|s scopes IH]; intros acc; simpl.
  { by rewrite app_nil_r. }
  destruct fg as [f|], s as [s|]; simpl; try apply IH.
  destruct (JS.truthy f && JS.truthy s); simpl; [|apply IH].
  rewrite IH, (IH [_]). by rewrite app_assoc.
Qed.

Lemma push_scopes_cons (fg : option string) (s : option string)
    (scopes : list (option string)) :
  push_scopes fg (s :: scopes) []
  = (push_scopes fg [s] [] ++ push_scopes fg scopes [])%list.
Proof.
  rewrite <- push_scopes_app. reflexivity.
Qed.

Lemma push_scopes_entry_rules (sc : ScopeField) (st : RawSettings) :
  push_scopes (settings_foreground st) (scopes_of sc) []
  = entry_rules (mkThemeEntry sc (Some st)).
Proof.
  unfold entry_rules. simpl.
  induction (scopes_of sc) as [|s scopes IH].
  - destruct (settings_foreground st) as [f|]; [|done].
    by destruct (JS.truthy f).
  - rewrite push_scopes_cons, IH.
    destruct (settings_foreground st) as [f|]; [|by destruct s].
    destruct s as [s|]; simpl; [|by destruct (JS.truthy f)].
    by destruct (JS.truthy f), (JS.truthy s).
Qed.

Lemma convert_entries_ok (entries : list ThemeEntry) (acc : list Rule) :
  Forall (fun e => is_Some (entry_settings e)) entries ->
  convert_entries entries acc
  = Ok (acc ++ concat (entry_rules <$> entries))%list.
Proof.
  intros Hall. revert acc.
  induction Hall as [|e entries [st Hst] _ IH]; intros acc; simpl.
  { by rewrite app_nil_r. }
  rewrite Hst, IH, push_scopes_app, <- app_assoc. do 3 f_equal.
  destruct e as [sc os]. simpl in Hst. subst os.
  apply push_scopes_entry_rules.
Qed.

Lemma convert_entries_bare (l1 l2 : list ThemeEntry) (e : ThemeEntry) acc :
  Forall (fun e => is_Some (entry_settings e)) l1 ->
  entry_settings e = None ->
  scopes_of (scope e) <> [] ->
  is_ok (convert_entries (l1 ++ e :: l2) acc) = false.
Proof.
  intros Hall He Hsc. revert acc.
  induction Hall as [|e' l1 [st Hst] _ IH]; intros acc; simpl.
  - rewrite He. by destruct (scopes_of (scope e)).
  - rewrite Hst. apply IH.
Qed.

End ConverterFacts.

Example convert_dark_theme :
  textmateThemeToMonacoTheme Demo.dark_theme = Ok Demo.dark_monaco.
Proof. vm_compute. reflexivity. Qed.

(** C7, as stated, fails: conversion throws on a theme with neither
    [settings] nor [tokenColors], and on an entry without its [settings]
    record; and [tokenize] throws when the active theme identifier has no
    registered host-form theme (here the host's built-in ["vs"]), after
    the engine and the interpreter were already called. *)
Lemma malformed_theme_input_throws :
  textmateThemeToMonacoTheme Demo.theme_without_settings
  = Throw (TypeError "themeSettings is not iterable")
  /\ textmateThemeToMonacoTheme Demo.theme_with_bare_entry
     = Throw (TypeError "Cannot read properties of undefined (reading 'foreground')")
  /\ currentTheme Demo.builtin_selected = Some "vs"
  /\ themeMap Demo.builtin_selected !! "vs" = None
  /\ (tokenize Demo.collaborators "ts" "// hi" Demo.started.1 Demo.builtin_selected).1
     = Throw (TypeError "Cannot read properties of undefined (reading 'rules')").
Proof. repeat split; vm_compute; reflexivity. Qed.

(** C7, amended: conversion does not raise on a theme that carries a rule
    list, or whose entry list exists with a [settings] record in every
    entry: the rule list is used as it is, or holds one rule per entry
    scope with a non-empty foreground and a non-empty scope, and entries
    with a missing or empty foreground or an absent or empty scope are
    skipped. [tokenize] does not raise when the Line State is valid and
    the active theme identifier has a registered host-form theme; then a
    colour with no rule gives the empty scope. *)
Theorem conversion_and_tokenization_total :
  (forall theme,
     is_Some (theme_rules theme)
     \/ (exists l, themeSettings_of theme = Some l
                   /\ Forall (fun e => is_Some (entry_settings e)) l) ->
     exists mt,
       textmateThemeToMonacoTheme theme = Ok mt
       /\ rules mt
          = match theme_rules theme with
            | Some rs => rs
            | None => concat (entry_rules <$> default [] (themeSettings_of theme))
            end)
  /\ (forall sc st,
        settings_foreground st = None \/ settings_foreground st = Some ""
        \/ sc = ScopeAbsent \/ sc = ScopeOne "" \/ sc = ScopeMany [] ->
        entry_rules (mkThemeEntry sc (Some st)) = [])
  /\ (forall C lang line state w rs hl th,
        heap w !! state = Some (OTokenizerState rs hl) ->
        (currentTheme w ≫= fun id => themeMap w !! id) = Some th ->
        exists out w', tokenize C lang line state w = (Ok out, w'))
  /\ (forall rs c, build_index rs !! c = None ->
                   scope_of_color (build_index rs) c = "").
Proof.
  repeat apply conj.
  - intros theme H. unfold textmateThemeToMonacoTheme.
    destruct (theme_rules theme) as [rs|] eqn:Hrs; simpl.
    { eexists. split; reflexivity. }
    destruct H as [[? [=]]|(l & Hl & Hall)].
    rewrite Hl, (convert_entries_ok l [] Hall). simpl.
    eexists. split; reflexivity.
  - intros sc st H. unfold entry_rules. simpl.
    destruct H as [-> | [-> | [-> | [-> | ->]]]]; try done;
      destruct (settings_foreground st) as [f|]; try done;
      by destruct (JS.truthy f).
  - intros C lang line state w rs hl th Hst Hth.
    destruct (N.ltb_spec (JS.length line) 20000) as [Hlen|Hlen].
    + rewrite (tokenize_registered C lang line state w rs hl th) by done.
      by eexists _, _.
    + exists (mkLineTokens state [mkToken 0 ""]), w.
      unfold tokenize, tokenizeMaxLineLength.
      destruct (N.leb_spec 20000 (JS.length line)); [done|lia].
  - intros rs c H. by rewrite scope_of_color_lookup, H.
Qed.

Lemma conversion_and_tokenization_total_witness :
  (exists mt,
     textmateThemeToMonacoTheme Demo.dark_theme = Ok mt
     /\ rules mt
        = match theme_rules Demo.dark_theme with
          | Some rs => rs
          | None => concat (entry_rules <$> default [] (themeSettings_of Demo.dark_theme))
          end)
  /\ entry_rules (mkThemeEntry (ScopeOne "emphasis") (Some (mkRawSettings None))) = []
  /\ (exists out w',
        tokenize Demo.collaborators "ts" "// hi" Demo.started.1 Demo.started.2
        = (Ok out, w')).
Proof.
  repeat apply conj.
  - apply (proj1 conversion_and_tokenization_total Demo.dark_theme).
    right. eexists. split; [reflexivity|].
    repeat constructor; simpl; eauto.
  - apply (proj1 (proj2 conversion_and_tokenization_total)).
    left. reflexivity.
  - apply (proj1 (proj2 (proj2 conversion_and_tokenization_total))
             Demo.collaborators "ts" "// hi" Demo.started.1 Demo.started.2
             0 7 Demo.light_monaco).
    + vm_compute. reflexivity.
    + vm_compute. reflexivity.
Defined.

(** ** Line State *)

Section LineStateFacts.

Lemma ruleStack_ok (l : loc) (w : World) rs hl :
  heap w !! l = Some (OTokenizerState rs hl) ->
  ruleStack l w = (Ok rs, w).
Proof. intros H. unfold ruleStack, bind, read_state, ret. by rewrite H. Qed.

Lemma clone_ok (this : loc) (w : World) rs hl :
  heap w !! this = Some (OTokenizerState rs hl) ->
  clone this w
  = (Ok (fresh (dom (heap w))),
     set_heap (insert (fresh (dom (heap w))) (OTokenizerState rs hl)) w).
Proof. intros H. unfold clone, bind, read_state. by rewrite H. Qed.

(** [equals] only reads: it returns a boolean and leaves the world as it
    is. *)
Lemma equals_run (this : loc) (other : option loc) (w : World) rs hl :
  heap w !! this = Some (OTokenizerState rs hl) ->
  equals this other w
  = (Ok (match other with
         | None => false
         | Some o =>
             match heap w !! o with
             | Some (OTokenizerState rs' _) => Nat.eqb o this && Nat.eqb rs' rs
             | _ => false
             end
         end), w).
Proof.
  intros Hthis. unfold equals. destruct other as [o|]; [|done].
  unfold bind, instanceof_TokenizerState, gets. simpl.
  destruct (heap w !! o) as [[rs' hl'| |]|] eqn:Ho; simpl; try done.
  destruct (Nat.eqb_spec o this) as [->|Hne]; simpl; [|done].
  rewrite (ruleStack_ok this w rs hl Hthis).
  rewrite (ruleStack_ok this w rs hl Hthis).
  assert (rs' = rs) as -> by congruence.
  by rewrite Nat.eqb_refl.
Qed.

End LineStateFacts.

(** C8: for a Line State [s] and any value [t] handed to [s.equals],
    the result is true if and only if [t] is the very same object as [s]
    and the stack handle of [t] is the handle of [s]. Two distinct objects
    are never equal, whatever they hold; [equals] reads and changes
    nothing. *)
Theorem equals_is_identity (s : loc) (t : option loc) (w : World) rs hl :
  heap w !! s = Some (OTokenizerState rs hl) ->
  exists b,
    equals s t w = (Ok b, w)
    /\ (b = true <->
        t = Some s
        /\ exists o rs' hl', t = Some o
                             /\ heap w !! o = Some (OTokenizerState rs' hl')
                             /\ rs' = rs).
Proof.
  intros Hs. rewrite (equals_run s t w rs hl Hs).
  eexists. split; [reflexivity|].
  destruct t as [o|]; [|split; [done|by intros [[=] _]]].
  destruct (heap w !! o) as [[rs' hl'| |]|] eqn:Ho.
  - rewrite andb_true_iff, !Nat.eqb_eq. split.
    + intros [-> ->]. split; [done|]. by exists s, rs, hl'.
    + intros [[= ->] (o' & rs'' & hl'' & [= <-] & Ho' & ->)].
      split; [done|]. congruence.
  - split; [done|]. intros [_ (o' & rs'' & hl'' & [= <-] & Ho' & _)]. congruence.
  - split; [done|]. intros [_ (o' & rs'' & hl'' & [= <-] & Ho' & _)]. congruence.
  - split; [done|]. intros [_ (o' & rs'' & hl'' & [= <-] & Ho' & _)]. congruence.
Qed.

Lemma equals_is_identity_witness :
  exists b,
    equals Demo.started.1 (Some Demo.started.1) Demo.started.2
    = (Ok b, Demo.started.2)
    /\ (b = true <->
        Some Demo.started.1 = Some Demo.started.1
        /\ exists o rs' hl', Some Demo.started.1 = Some o
             /\ heap Demo.started.2 !! o = Some (OTokenizerState rs' hl')
             /\ rs' = 0).
Proof.
  apply (equals_is_identity Demo.started.1 (Some Demo.started.1) Demo.started.2 0 7).
  vm_compute. reflexivity.
Defined.

(** A Line State equals itself. *)
Example equals_self :
  (equals Demo.started.1 (Some Demo.started.1) Demo.started.2).1 = Ok true.
Proof. vm_compute. reflexivity. Qed.

(** C9: for every Line State [s], [s.clone()] returns an object that did
    not exist before, distinct from [s], wrapping the same stack handle
    and the same highlighter reference as [s], which is left as it was;
    [clone.equals(s)] and [s.equals(clone)] are both false. *)
Theorem clone_not_equal (s : loc) (w : World) rs hl :
  heap w !! s = Some (OTokenizerState rs hl) ->
  exists c w',
    clone s w = (Ok c, w')
    /\ c <> s
    /\ heap w !! c = None
    /\ heap w' !! c = Some (OTokenizerState rs hl)
    /\ heap w' !! s = Some (OTokenizerState rs hl)
    /\ equals c (Some s) w' = (Ok false, w')
    /\ equals s (Some c) w' = (Ok false, w').
Proof.
  intros Hs. rewrite (clone_ok s w rs hl Hs).
  pose proof (alloc_fresh w) as Hc.
  set (c := fresh (dom (heap w))) in *.
  assert (Hne : c <> s) by (intros E; congruence).
  set (w' := set_heap (insert c (OTokenizerState rs hl)) w).
  exists c, w'. split; [reflexivity|].
  assert (Hc' : heap w' !! c = Some (OTokenizerState rs hl))
    by apply lookup_insert_eq.
  assert (Hs' : heap w' !! s = Some (OTokenizerState rs hl))
    by (unfold w'; simpl; by rewrite lookup_insert_ne).
  repeat apply conj; try done.
  - rewrite (equals_run c (Some s) w' rs hl Hc'), Hs'.
    destruct (Nat.eqb_spec s c); [congruence|done].
  - rewrite (equals_run s (Some c) w' rs hl Hs'), Hc'.
    destruct (Nat.eqb_spec c s); [congruence|done].
Qed.

Lemma clone_not_equal_witness :
  exists c w',
    clone Demo.started.1 Demo.started.2 = (Ok c, w')
    /\ c <> Demo.started.1
    /\ heap Demo.started.2 !! c = None
    /\ heap w' !! c = Some (OTokenizerState 0 7)
    /\ heap w' !! Demo.started.1 = Some (OTokenizerState 0 7)
    /\ equals c (Some Demo.started.1) w' = (Ok false, w')
    /\ equals Demo.started.1 (Some c) w' = (Ok false, w').
Proof.
  apply (clone_not_equal Demo.started.1 Demo.started.2 0 7).
  vm_compute. reflexivity.
Defined.

(** * Further properties of the bridge *)

(** ** Color Normalizer: shape of the result, spellings *)

Section NormalizerShape.

Lemma lower_ascii_marker (c : ascii) :
  Ascii.eqb (JS.lower_ascii c) "#" = Ascii.eqb c "#".
Proof. destruct c as [[] [] [] [] [] [] [] []]; reflexivity. Qed.

Lemma replace_first_lower (s : string) :
  JS.replace_first "#" (JS.toLowerCase s)
  = JS.toLowerCase (JS.replace_first "#" s).
Proof.
  induction s as [|c s IH]; simpl; [done|].
  rewrite lower_ascii_marker. destruct (Ascii.eqb c "#"); simpl; [done|].
  by rewrite IH.
Qed.

Lemma hex_lower (c : ascii) :
  is_hex c = true ->
  is_lower_hex (JS.lower_ascii c) = true /\ Ascii.eqb c "#" = false.
Proof. destruct c as [[] [] [] [] [] [] [] []]; cbv; intuition congruence. Qed.

Lemma hex_string_lower (s : string) :
  all_chars is_hex s = true ->
  all_chars is_lower_hex (JS.toLowerCase s) = true /\ count_char "#" s = 0.
Proof.
  induction s as [|c s IH]; simpl; [done|].
  intros [Hc Hs]%andb_prop.
  destruct (hex_lower c Hc) as [-> ->], (IH Hs) as [-> ->]. done.
Qed.

Lemma all_chars_double (p : ascii -> bool) (s : string) :
  all_chars p (JS.double_chars s) = all_chars p s.
Proof.
  induction s as [|c s IH]; simpl; [done|]. rewrite IH.
  by destruct (p c).
Qed.

Lemma expand_short_length (c : string) :
  JS.length (expand_short c)
  = if (JS.length c =? 3)%N || (JS.length c =? 4)%N
    then (2 * JS.length c)%N else JS.length c.
Proof.
  unfold expand_short.
  destruct ((JS.length c =? 3)%N || (JS.length c =? 4)%N); [|done].
  apply double_chars_length.
Qed.

Lemma expand_short_lower (c : string) :
  JS.toLowerCase (expand_short c) = expand_short (JS.toLowerCase c).
Proof.
  unfold expand_short. rewrite toLowerCase_length.
  destruct ((JS.length c =? 3)%N || (JS.length c =? 4)%N); [|done].
  apply toLowerCase_double.
Qed.

Lemma count_char_expand_short (c : string) :
  count_char "#" c = 0 -> count_char "#" (expand_short c) = 0.
Proof.
  intros H. unfold expand_short.
  destruct ((JS.length c =? 3)%N || (JS.length c =? 4)%N); [|done].
  rewrite count_char_double. lia.
Qed.

(** A leading marker in front of a string that has none is dropped. *)
Lemma normalizeColor_string_marker (s : string) :
  count_char "#" s = 0 ->
  normalizeColor_string (String "#" s) = normalizeColor_string s.
Proof.
  intros H. rewrite !normalizeColor_string_steps. simpl.
  by rewrite replace_first_absent.
Qed.

End NormalizerShape.

(** X1: whatever the input, the result of the normalizer never has 3 or
    4 characters and has no capital letter; when the input has at most one
    marker, the result has none. *)
Theorem normalizeColor_string_shape (s : string) :
  JS.length (normalizeColor_string s) <> 3%N
  /\ JS.length (normalizeColor_string s) <> 4%N
  /\ JS.toLowerCase (normalizeColor_string s) = normalizeColor_string s
  /\ (count_char "#" s <= 1 -> count_char "#" (normalizeColor_string s) = 0).
Proof.
  rewrite normalizeColor_string_steps.
  set (c := JS.toLowerCase (JS.replace_first "#" s)).
  repeat apply conj.
  - rewrite expand_short_length.
    destruct (N.eqb_spec (JS.length c) 3), (N.eqb_spec (JS.length c) 4);
      simpl; lia.
  - rewrite expand_short_length.
    destruct (N.eqb_spec (JS.length c) 3), (N.eqb_spec (JS.length c) 4);
      simpl; lia.
  - rewrite expand_short_lower. unfold c. by rewrite toLowerCase_idem.
  - intros Hm. apply count_char_expand_short. unfold c.
    rewrite count_char_lower, count_char_replace_first. lia.
Qed.

Lemma normalizeColor_string_shape_witness :
  count_char "#" "#AbC" <= 1
  /\ count_char "#" (normalizeColor_string "#AbC") = 0.
Proof.
  split.
  - vm_compute. lia.
  - apply (proj2 (proj2 (proj2 (normalizeColor_string_shape "#AbC")))).
    vm_compute. lia.
Defined.

(** X2: on every value with at most one marker, normalizing twice gives
    what normalizing once gives. *)
Theorem normalizeColor_idempotent (color : option string) :
  (forall s, color = Some s -> count_char "#" s <= 1) ->
  normalizeColor (normalizeColor color) = normalizeColor color.
Proof.
  intros H. destruct color as [s|]; simpl; [|done]. f_equal.
  apply normalizeColor_string_twice. by apply H.
Qed.

Lemma normalizeColor_idempotent_witness :
  normalizeColor (normalizeColor (Some "#AbC8")) = normalizeColor (Some "#AbC8").
Proof.
  apply (normalizeColor_idempotent (Some "#AbC8")).
  intros s [= <-]. vm_compute. lia.
Defined.

(** X3: the normalizer does not tell spellings of one colour apart: the
    case of the letters, a leading marker in front of a string without
    marker, and the short form of a string of 3 or 4 characters against
    its expansion all give the same result. *)
Theorem normalizeColor_string_spellings (s : string) :
  normalizeColor_string (JS.toLowerCase s) = normalizeColor_string s
  /\ (count_char "#" s = 0 ->
      normalizeColor_string (String "#" s) = normalizeColor_string s)
  /\ (count_char "#" s = 0 ->
      JS.length s = 3%N \/ JS.length s = 4%N ->
      normalizeColor_string (JS.double_chars s) = normalizeColor_string s).
Proof.
  repeat apply conj.
  - rewrite !normalizeColor_string_steps.
    by rewrite replace_first_lower, toLowerCase_idem.
  - apply normalizeColor_string_marker.
  - intros Hm Hlen. rewrite !normalizeColor_string_steps.
    rewrite !replace_first_absent by (rewrite ?count_char_double; lia).
    rewrite toLowerCase_double. unfold expand_short.
    rewrite double_chars_length, !toLowerCase_length.
    destruct Hlen as [-> | ->]; reflexivity.
Qed.

Lemma normalizeColor_string_spellings_witness :
  normalizeColor_string "#fa0" = normalizeColor_string "fa0"
  /\ normalizeColor_string "ffaa00" = normalizeColor_string "fa0".
Proof.
  split.
  - apply (proj1 (proj2 (normalizeColor_string_spellings "fa0"))).
    reflexivity.
  - apply (proj2 (proj2 (normalizeColor_string_spellings "fa0"))).
    + reflexivity.
    + left. reflexivity.
Defined.

(** X4: a hexadecimal colour of 3, 4, 6 or 8 digits of either case, with
    or without the leading marker, is normalized to six or eight lowercase
    hexadecimal digits. *)
Theorem normalizeColor_hex (h : string) :
  all_chars is_hex h = true ->
  JS.length h = 3%N \/ JS.length h = 4%N \/ JS.length h = 6%N \/ JS.length h = 8%N ->
  normalized_form (normalizeColor_string h) = true
  /\ normalized_form (normalizeColor_string (String "#" h)) = true.
Proof.
  intros Hhex Hlen.
  destruct (hex_string_lower h Hhex) as [Hlow Hm].
  rewrite normalizeColor_string_marker by done.
  assert (normalized_form (normalizeColor_string h) = true); [|done].
  rewrite normalizeColor_string_steps, replace_first_absent by done.
  unfold normalized_form. rewrite expand_short_length.
  unfold expand_short. rewrite toLowerCase_length.
  destruct Hlen as [-> | [-> | [-> | ->]]]; simpl;
    rewrite ?all_chars_double, Hlow; reflexivity.
Qed.

Lemma normalizeColor_hex_witness :
  normalized_form (normalizeColor_string "6A9955") = true
  /\ normalized_form (normalizeColor_string "#6A9955") = true.
Proof.
  apply (normalizeColor_hex "6A9955").
  - reflexivity.
  - right. right. left. reflexivity.
Defined.

(** ** Theme Converter: errors, shape of the rules, round trip *)

Section ConverterShape.

(** An entry the converter reads without error: it has a [settings]
    record, or no scope at which [settings.foreground] would be read. *)
Lemma convert_entries_ok_inv (entries : list ThemeEntry) (acc : list Rule) :
  is_ok (convert_entries entries acc) = true ->
  Forall (fun e => is_Some (entry_settings e) \/ scopes_of (scope e) = [])
    entries.
Proof.
  revert acc. induction entries as [|e entries IH]; intros acc; simpl.
  { constructor. }
  destruct (entry_settings e) as [st|] eqn:Hst.
  - intros H. constructor; [left; by eexists|]. by apply (IH _ H).
  - destruct (scopes_of (scope e)) as [|s scopes] eqn:Hsc; [|discriminate].
    intros H. constructor; [by right|]. by apply (IH _ H).
Qed.

Lemma convert_entries_readable (entries : list ThemeEntry) (acc : list Rule) :
  Forall (fun e => is_Some (entry_settings e) \/ scopes_of (scope e) = [])
    entries ->
  convert_entries entries acc
  = Ok (acc ++ concat (entry_rules <$> entries))%list.
Proof.
  intros Hall. revert acc.
  induction Hall as [|e entries He _ IH]; intros acc; simpl.
  { by rewrite app_nil_r. }
  destruct (entry_settings e) as [st|] eqn:Hst.
  - rewrite IH, push_scopes_app, <- app_assoc. do 3 f_equal.
    destruct e as [sc os]. simpl in Hst. subst os.
    apply push_scopes_entry_rules.
  - destruct He as [[? [=]]|Hsc]. rewrite Hsc, IH. do 2 f_equal.
    unfold entry_rules. by rewrite Hst.
Qed.

Lemma entry_rules_elem (e : ThemeEntry) (r : Rule) :
  r ∈ entry_rules e ->
  JS.truthy (token r) = true
  /\ exists st f,
       entry_settings e = Some st
       /\ settings_foreground st = Some f
       /\ JS.truthy f = true
       /\ Some (token r) ∈ scopes_of (scope e)
       /\ foreground r = Some (normalizeColor_string f).
Proof.
  unfold entry_rules.
  destruct (entry_settings e) as [st|]; simpl; [|by intros ?%elem_of_nil].
  destruct (settings_foreground st) as [f|] eqn:Hf; [|by intros ?%elem_of_nil].
  destruct (JS.truthy f) eqn:Htf; [|by intros ?%elem_of_nil].
  intros (s & Hs & Hr)%list_elem_of_omap.
  destruct s as [s|]; [|done].
  destruct (JS.truthy s) eqn:Hts; [|done].
  injection Hr as <-. simpl. split; [done|].
  by exists st, f.
Qed.

Lemma normalizeColor_string_no_marker (s : string) :
  count_char "#" s <= 1 -> count_char "#" (normalizeColor_string s) = 0.
Proof.
  intros Hm. rewrite normalizeColor_string_steps.
  apply count_char_expand_short.
  rewrite count_char_lower, count_char_replace_first. lia.
Qed.

(** Marking a normalized colour again and normalizing it changes
    nothing. *)
Lemma mark_normalize_twice (v : string) :
  count_char "#" v <= 1 ->
  "#" ++ normalizeColor_string ("#" ++ normalizeColor_string v)
  = "#" ++ normalizeColor_string v.
Proof.
  intros Hm.
  change (String "#" (normalizeColor_string (String "#" (normalizeColor_string v)))
          = String "#" (normalizeColor_string v)).
  f_equal.
  rewrite normalizeColor_string_marker
    by by apply normalizeColor_string_no_marker.
  by apply normalizeColor_string_twice.
Qed.

End ConverterShape.

(** X5: the converter returns normally exactly on the themes that carry
    a rule list, or whose entry list ([settings], else [tokenColors])
    exists and in which every entry has a [settings] record or an empty
    scope array; on every other theme it throws. *)
Theorem textmateThemeToMonacoTheme_ok_iff (theme : Theme) :
  is_ok (textmateThemeToMonacoTheme theme) = true
  <-> (is_Some (theme_rules theme)
       \/ exists l, themeSettings_of theme = Some l
                    /\ Forall (fun e => is_Some (entry_settings e)
                                        \/ scopes_of (scope e) = []) l).
Proof.
  unfold textmateThemeToMonacoTheme.
  destruct (theme_rules theme) as [rs|]; simpl.
  { split; [left; by eexists|done]. }
  destruct (themeSettings_of theme) as [l|]; simpl.
  - destruct (convert_entries l []) as [rules|e] eqn:Hc; simpl.
    + split; [|done]. intros _. right. exists l. split; [done|].
      apply (convert_entries_ok_inv l []). by rewrite Hc.
    + split; [done|]. intros [[? [=]]|(l' & [= <-] & Hall)].
      rewrite (convert_entries_readable l [] Hall) in Hc. discriminate.
  - split; [done|]. by intros [[? [=]]|(l' & [=] & _)].
Qed.

Lemma textmateThemeToMonacoTheme_ok_iff_witness :
  is_ok (textmateThemeToMonacoTheme Scenario.theme_with_scopeless_entry) = true
  /\ ~ (is_Some (theme_rules Demo.theme_with_bare_entry)
        \/ exists l, themeSettings_of Demo.theme_with_bare_entry = Some l
                     /\ Forall (fun e => is_Some (entry_settings e)
                                         \/ scopes_of (scope e) = []) l).
Proof.
  split.
  - apply (proj2 (textmateThemeToMonacoTheme_ok_iff
                    Scenario.theme_with_scopeless_entry)).
    right. eexists. split; [reflexivity|].
    constructor; [by right|constructor].
  - intros H.
    apply (proj2 (textmateThemeToMonacoTheme_ok_iff Demo.theme_with_bare_entry)) in H.
    discriminate H.
Defined.

(** Where a rule of a converted theme comes from. *)
Lemma converted_rule_elem (theme : Theme) (mt : MonacoTheme) :
  theme_rules theme = None ->
  textmateThemeToMonacoTheme theme = Ok mt ->
  forall r, r ∈ rules mt ->
    JS.truthy (token r) = true
    /\ exists e st f,
         e ∈ default [] (themeSettings_of theme)
         /\ entry_settings e = Some st
         /\ settings_foreground st = Some f
         /\ JS.truthy f = true
         /\ Some (token r) ∈ scopes_of (scope e)
         /\ foreground r = Some (normalizeColor_string f).
Proof.
  intros Hrs Hc r Hr.
  unfold textmateThemeToMonacoTheme in Hc. rewrite Hrs in Hc.
  destruct (themeSettings_of theme) as [l|]; [|discriminate]. simpl.
  destruct (convert_entries l []) as [rs|err] eqn:Hl; [|discriminate].
  simpl in Hc. injection Hc as <-. simpl in Hr.
  assert (Hall : Forall (fun e => is_Some (entry_settings e)
                                  \/ scopes_of (scope e) = []) l)
    by (apply (convert_entries_ok_inv l []); by rewrite Hl).
  rewrite (convert_entries_readable l [] Hall) in Hl. injection Hl as <-.
  simpl in Hr. apply list_elem_of_In, in_concat in Hr as (rs' & Hrs' & Hr).
  apply list_elem_of_In in Hrs', Hr.
  apply list_elem_of_fmap in Hrs' as (e & -> & He).
  destruct (entry_rules_elem e r Hr) as (Ht & st & f & H).
  split; [done|]. by exists e, st, f.
Qed.

(** X6: in a theme converted from its entry list, every rule has a
    non-empty token and a present foreground: the token is one of the
    scopes of an entry, and the foreground is the normalized, non-empty
    foreground of that entry. *)
Theorem converted_rules_well_formed (theme : Theme) (mt : MonacoTheme) :
  theme_rules theme = None ->
  textmateThemeToMonacoTheme theme = Ok mt ->
  forall r, r ∈ rules mt ->
    JS.truthy (token r) = true
    /\ exists e st f,
         e ∈ default [] (themeSettings_of theme)
         /\ entry_settings e = Some st
         /\ settings_foreground st = Some f
         /\ JS.truthy f = true
         /\ Some (token r) ∈ scopes_of (scope e)
         /\ foreground r = Some (normalizeColor_string f).
Proof. apply converted_rule_elem. Qed.

Lemma converted_rules_well_formed_witness :
  JS.truthy (token (mkRule "string.quoted" (Some "ccee99"))) = true
  /\ exists e st f,
       e ∈ default [] (themeSettings_of Demo.dark_theme)
       /\ entry_settings e = Some st
       /\ settings_foreground st = Some f
       /\ JS.truthy f = true
       /\ Some (token (mkRule "string.quoted" (Some "ccee99"))) ∈ scopes_of (scope e)
       /\ foreground (mkRule "string.quoted" (Some "ccee99"))
          = Some (normalizeColor_string f).
Proof.
  apply (converted_rules_well_formed Demo.dark_theme Demo.dark_monaco).
  - reflexivity.
  - vm_compute. reflexivity.
  - simpl. do 2 apply list_elem_of_further. apply list_elem_of_here.
Defined.

(** X7: converting again what the converter produced changes nothing:
    when the values of the colour table have at most one marker each, the
    theme made of the converted rules and the converted colour table
    converts to the same host-form theme. *)
Theorem conversion_round_trip (theme : Theme) (mt : MonacoTheme) :
  textmateThemeToMonacoTheme theme = Ok mt ->
  (forall k v, default ∅ (theme_colors theme) !! k = Some v ->
               count_char "#" v <= 1) ->
  textmateThemeToMonacoTheme
    (mkTheme (Some (rules mt)) None None (Some (colors mt)) (theme_type theme))
  = Ok mt.
Proof.
  intros Hc Hcol. unfold textmateThemeToMonacoTheme in *.
  destruct (match theme_rules theme with
            | Some rules => Ok rules
            | None => _
            end) as [rs|err]; [|discriminate].
  simpl in *. injection Hc as <-. simpl. do 2 f_equal.
  apply map_eq. intros k. rewrite !lookup_fmap.
  destruct (default ∅ (theme_colors theme) !! k) as [v|] eqn:Hk; simpl; [|done].
  f_equal. apply mark_normalize_twice. by apply (Hcol k).
Qed.

Lemma conversion_round_trip_witness :
  textmateThemeToMonacoTheme
    (mkTheme (Some (rules Demo.dark_monaco)) None None
       (Some (colors Demo.dark_monaco)) (theme_type Demo.dark_theme))
  = Ok Demo.dark_monaco.
Proof.
  apply (conversion_round_trip Demo.dark_theme Demo.dark_monaco).
  - vm_compute. reflexivity.
  - intros k v. simpl.
    intros [_ <-]%lookup_singleton_Some. vm_compute. lia.
Defined.

(** ** Scope-Color Index: its entries, its growth *)

Section IndexShape.

Implicit Types (m : gmap string string) (rs : list Rule).

Lemma index_step_size m (r : Rule) :
  size (index_step m r) <= S (size m).
Proof.
  unfold index_step.
  destruct (normalizeColor (foreground r)) as [c|]; [|lia].
  destruct (JS.truthy c); simpl; [|lia].
  case_bool_decide as Hc; simpl; [lia|].
  rewrite map_size_insert_None; [lia|].
  destruct (m !! c) eqn:E; [|done]. exfalso. apply Hc. by eexists.
Qed.

Lemma foldl_index_step_size rs m :
  size (foldl index_step m rs) <= size m + length rs.
Proof.
  revert m. induction rs as [|r rs IH]; intros m; simpl; [lia|].
  specialize (IH (index_step m r)). pose proof (index_step_size m r). lia.
Qed.

(** Lookup in an index grown from [m], for every colour. *)
Lemma foldl_index_step_from rs m (c : string) :
  foldl index_step m rs !! c
  = match m !! c with
    | Some t => Some t
    | None => build_index rs !! c
    end.
Proof.
  destruct (JS.truthy c) eqn:Ht.
  - unfold build_index. rewrite !foldl_index_step_lookup by done.
    by rewrite lookup_empty.
  - destruct c; [|discriminate]. unfold build_index.
    rewrite !foldl_index_step_empty_key, lookup_empty.
    by destruct (m !! "").
Qed.

Lemma first_rule_of_color_spec (c : string) rs (r : Rule) :
  first_rule_of_color c rs = Some r ->
  r ∈ rs /\ normalizeColor (foreground r) = Some c.
Proof.
  unfold first_rule_of_color. intros [Hin Hb]%find_some.
  split; [by apply list_elem_of_In|].
  by apply bool_decide_eq_true in Hb.
Qed.

End IndexShape.

(** X9: every entry of the index comes from a rule: its key is a
    non-empty colour, and its value is the token of the first rule of the
    list whose normalized foreground is that colour. The index has at most
    as many entries as the list has rules. *)
Theorem build_index_sound (rs : list Rule) :
  (forall c t, build_index rs !! c = Some t ->
     JS.truthy c = true
     /\ exists r, r ∈ rs
                  /\ normalizeColor (foreground r) = Some c
                  /\ first_rule_of_color c rs = Some r
                  /\ token r = t)
  /\ size (build_index rs) <= length rs.
Proof.
  split.
  - intros c t Hc. unfold build_index in Hc.
    destruct (JS.truthy c) eqn:Ht.
    + split; [done|].
      rewrite foldl_index_step_lookup, lookup_empty in Hc by done.
      destruct (first_rule_of_color c rs) as [r|] eqn:Hr; [|done].
      injection Hc as <-.
      destruct (first_rule_of_color_spec c rs r Hr). by exists r.
    + destruct c; [|discriminate].
      by rewrite foldl_index_step_empty_key, lookup_empty in Hc.
  - pose proof (foldl_index_step_size rs ∅) as H.
    by rewrite map_size_empty in H.
Qed.

Lemma build_index_sound_witness :
  JS.truthy "ccee99" = true
  /\ exists r, r ∈ rules Demo.dark_monaco
               /\ normalizeColor (foreground r) = Some "ccee99"
               /\ first_rule_of_color "ccee99" (rules Demo.dark_monaco) = Some r
               /\ token r = "string".
Proof.
  apply (proj1 (build_index_sound (rules Demo.dark_monaco)) "ccee99" "string").
  reflexivity.
Defined.

(** X10: rules added at the end of a rule list never change what the
    index already maps: the index of a list followed by another maps a
    colour as the index of the first list does, and, for the colours the
    first list does not map, as the index of the second does. *)
Theorem build_index_app (rs1 rs2 : list Rule) (c : string) :
  build_index (rs1 ++ rs2) !! c
  = match build_index rs1 !! c with
    | Some t => Some t
    | None => build_index rs2 !! c
    end.
Proof.
  unfold build_index at 1. rewrite foldl_app.
  apply foldl_index_step_from.
Qed.

(** ** Tokenizer Bridge: the emitted tokens *)

Section TokenShape.

Lemma tokensLength_spec (ts : list N) (j : nat) :
  j < tokensLength ts <-> 2 * j < length ts.
Proof.
  unfold tokensLength.
  pose proof (Nat.div_mod_eq (length ts + 1) 2) as H.
  pose proof (Nat.mod_upper_bound (length ts + 1) 2) as H'.
  lia.
Qed.

Lemma even_entries_lookup (ts : list N) (j : nat) :
  even_entries ts !! j = ts !! (2 * j).
Proof.
  revert ts. induction j as [|j IH]; intros ts.
  - by destruct ts.
  - destruct ts as [|a [|b ts]]; [done..|].
    replace (2 * S j) with (S (S (2 * j))) by lia. simpl. apply IH.
Qed.

Lemma bridge_tokens_lookup (C : Collaborators) (colorMap : list string)
    (index : gmap string string) (ts : list N) (j : nat) (s : N) :
  ts !! (2 * j) = Some s ->
  bridge_tokens C colorMap index ts !! j
  = Some (mkToken s
            (scope_of_color index
               (normalizeColor_string
                  (colorMap_at colorMap
                     (getForeground C (default 0%N (ts !! (2 * j + 1)))))))).
Proof.
  intros Hs. unfold bridge_tokens.
  assert (Hj : j < tokensLength ts)
    by (apply tokensLength_spec; by apply lookup_lt_Some in Hs).
  rewrite list_lookup_fmap, (lookup_seq_lt 0 _ j Hj). simpl.
  by rewrite (list_lookup_total_correct ts (j + (j + 0)) s Hs).
Qed.

End TokenShape.

(** X11: each emitted token carries the start offset of its pair, and
    its scope is the token of the first rule of the active theme whose
    normalized foreground is the normalized colour of the pair's metadata;
    it is empty when no rule has that colour, or when that colour is
    empty. *)
Theorem bridge_token_scope (C : Collaborators) (colorMap : list string)
    (rs : list Rule) (ts : list N) (j : nat) (s : N) :
  ts !! (2 * j) = Some s ->
  let color :=
    normalizeColor_string
      (colorMap_at colorMap (getForeground C (default 0%N (ts !! (2 * j + 1))))) in
  bridge_tokens C colorMap (build_index rs) ts !! j
  = Some (mkToken s
            (if JS.truthy color
             then match first_rule_of_color color rs with
                  | Some r => token r
                  | None => ""
                  end
             else "")).
Proof.
  intros Hs color. rewrite (bridge_tokens_lookup C colorMap _ ts j s Hs).
  fold color. do 2 f_equal. rewrite scope_of_color_lookup.
  destruct (JS.truthy color) eqn:Ht.
  - unfold build_index. rewrite foldl_index_step_lookup, lookup_empty by done.
    by destruct (first_rule_of_color color rs).
  - destruct color; [|discriminate]. unfold build_index.
    by rewrite foldl_index_step_empty_key, lookup_empty.
Qed.

Lemma bridge_token_scope_witness :
  bridge_tokens Scenario.steady [""; "#000000"; "#008000"]
    (build_index (rules Demo.light_monaco))
    [0%N; 65536%N; 3%N; 32768%N; 5%N] !! 0
  = Some (mkToken 0 "comment").
Proof.
  exact (bridge_token_scope Scenario.steady [""; "#000000"; "#008000"]
           (rules Demo.light_monaco) [0%N; 65536%N; 3%N; 32768%N; 5%N] 0 0%N
           eq_refl).
Defined.

(** X12: the start offsets of the emitted tokens are the entries at the
    even positions of the interpreter's array, in the same order; a
    trailing offset without metadata still gives a token, and an empty
    array gives none. *)
Theorem bridge_tokens_offsets (C : Collaborators) (colorMap : list string)
    (index : gmap string string) (ts : list N) :
  startIndex <$> bridge_tokens C colorMap index ts = even_entries ts.
Proof.
  apply list_eq. intros j. rewrite list_lookup_fmap, even_entries_lookup.
  destruct (ts !! (2 * j)) as [s|] eqn:Hs.
  - by rewrite (bridge_tokens_lookup C colorMap index ts j s Hs).
  - unfold bridge_tokens. rewrite list_lookup_fmap, lookup_seq_ge; [done|].
    apply lookup_ge_None in Hs.
    destruct (Nat.le_gt_cases (tokensLength ts) j) as [|Hj]; [done|].
    apply tokensLength_spec in Hj. lia.
Qed.

Example steady_tokens :
  bridge_tokens Scenario.steady [""; "#000000"; "#008000"]
    (build_index (rules Demo.light_monaco))
    [0%N; 65536%N; 3%N; 32768%N; 5%N]
  = [ mkToken 0 "comment"; mkToken 3 ""; mkToken 5 "" ].
Proof. vm_compute. reflexivity. Qed.

(** ** Tokenizer Bridge: failures, frame, successive lines *)

Section TokenizeRuns.

Variable C : Collaborators.

Lemma tokenize_not_a_state (lang line : string) (state : loc) (w : World) :
  (JS.length line < 20000)%N ->
  not_a_state (heap w !! state) ->
  tokenize C lang line state w
  = (Throw (TypeError "Cannot read properties of undefined"), w).
Proof.
  intros Hlen Hst. unfold tokenize, tokenizeMaxLineLength.
  destruct (N.leb_spec 20000 (JS.length line)); [lia|].
  unfold bind, read_state.
  by destruct (heap w !! state) as [[]|].
Qed.

Lemma tokenize_unregistered_run (lang line : string) (state : loc) (w : World)
    rs hl :
  (JS.length line < 20000)%N ->
  heap w !! state = Some (OTokenizerState rs hl) ->
  (currentTheme w ≫= fun id => themeMap w !! id) = None ->
  tokenize C lang line state w
  = (Throw (TypeError "Cannot read properties of undefined (reading 'rules')"),
     mkWorld (themeMap w) (currentTheme w) (currentTheme w)
       (<[fresh (dom (heap w)) := OMap ∅]> (heap w))
       (log w ++ tokenize_events C lang line rs (currentTheme w))%list).
Proof.
  intros Hlen Hst Hth.
  rewrite (tokenize_short C lang line state w rs hl Hlen Hst), Hth.
  unfold after_interpreter, tokenize_events, tokenizeTimeLimit.
  destruct (stoppedEarly (tokenizeLine2 C lang line rs 500)); simpl;
    unfold set_heap, add_log, set_engineTheme; simpl;
    rewrite <- ?app_assoc; reflexivity.
Qed.

Lemma tokenize_registered_log (lang line : string) (state : loc) (w : World)
    rs hl th :
  (JS.length line < 20000)%N ->
  heap w !! state = Some (OTokenizerState rs hl) ->
  (currentTheme w ≫= fun id => themeMap w !! id) = Some th ->
  log (tokenize C lang line state w).2
  = (log w ++ tokenize_events C lang line rs (currentTheme w))%list.
Proof.
  intros Hlen Hst Hth.
  by rewrite (tokenize_registered C lang line state w rs hl th).
Qed.

End TokenizeRuns.



(** X14: on a line below the ceiling, with a valid Line State, when the
    recorded theme identifier is absent or has no host-form theme,
    [tokenize] throws a [TypeError], and it does so late: the engine's
    active theme is already the recorded identifier, the interpreter was
    already called, an empty index was already allocated; no Line State
    is created. *)
Theorem tokenize_unregistered_theme (C : Collaborators) (lang line : string)
    (state : loc) (w : World) rs hl :
  (JS.length line < 20000)%N ->
  heap w !! state = Some (OTokenizerState rs hl) ->
  (currentTheme w ≫= fun id => themeMap w !! id) = None ->
  exists w',
    tokenize C lang line state w
    = (Throw (TypeError "Cannot read properties of undefined (reading 'rules')"), w')
    /\ engineTheme w' = currentTheme w
    /\ currentTheme w' = currentTheme w
    /\ log w' = (log w ++ [ EvEngineSetTheme (currentTheme w);
                            EvTokenizeLine2 lang line rs 500 ]
                 ++ (if stoppedEarly (tokenizeLine2 C lang line rs 500)
                     then [ EvWarn (warning_of line) ] else []))%list
    /\ heap w' = <[fresh (dom (heap w)) := OMap ∅]> (heap w)
    /\ heap w !! fresh (dom (heap w)) = None.
Proof.
  intros Hlen Hst Hth.
  rewrite (tokenize_unregistered_run C lang line state w rs hl) by done.
  eexists. split; [reflexivity|]. simpl.
  repeat apply conj; try reflexivity. apply alloc_fresh.
Qed.

Lemma tokenize_unregistered_theme_witness :
  exists w',
    tokenize Demo.collaborators "ts" "// hi" Demo.started.1 Demo.builtin_selected
    = (Throw (TypeError "Cannot read properties of undefined (reading 'rules')"), w')
    /\ engineTheme w' = currentTheme Demo.builtin_selected
    /\ currentTheme w' = currentTheme Demo.builtin_selected
    /\ log w' = (log Demo.builtin_selected
                 ++ [ EvEngineSetTheme (currentTheme Demo.builtin_selected);
                      EvTokenizeLine2 "ts" "// hi" 0 500 ]
                 ++ (if stoppedEarly (tokenizeLine2 Demo.collaborators "ts" "// hi" 0 500)
                     then [ EvWarn (warning_of "// hi") ] else []))%list
    /\ heap w' = <[fresh (dom (heap Demo.builtin_selected)) := OMap ∅]>
                   (heap Demo.builtin_selected)
    /\ heap Demo.builtin_selected !! fresh (dom (heap Demo.builtin_selected)) = None.
Proof.
  apply (tokenize_unregistered_theme Demo.collaborators "ts" "// hi"
           Demo.started.1 Demo.builtin_selected 0 7).
  - vm_compute. reflexivity.
  - vm_compute. reflexivity.
  - vm_compute. reflexivity.
Defined.

(** X15: whatever its arguments and however it ends, [tokenize] never
    changes the registered themes or the recorded theme identifier, never
    changes or removes an object of the heap (so no Line State is ever
    mutated), and only appends to the log of calls. *)
Theorem tokenize_preserves (C : Collaborators) (lang line : string)
    (state : loc) (w : World) :
  themeMap (tokenize C lang line state w).2 = themeMap w
  /\ currentTheme (tokenize C lang line state w).2 = currentTheme w
  /\ (forall l o, heap w !! l = Some o ->
                  heap (tokenize C lang line state w).2 !! l = Some o)
  /\ exists events, log (tokenize C lang line state w).2 = (log w ++ events)%list.
Proof.
  destruct (N.ltb_spec (JS.length line) 20000) as [Hlen|Hlen].
  2:{ unfold tokenize, tokenizeMaxLineLength.
      destruct (N.leb_spec 20000 (JS.length line)); [|lia]. simpl.
      repeat apply conj; try done. exists []. by rewrite app_nil_r. }
  destruct (heap w !! state) as [[rs hl| |]|] eqn:Hst.
  2-4: rewrite (tokenize_not_a_state C lang line state w Hlen)
         by (by rewrite Hst);
       simpl; repeat apply conj; try done; exists []; by rewrite app_nil_r.
  pose proof (alloc_fresh w) as Hm.
  destruct (currentTheme w ≫= fun id => themeMap w !! id) as [th|] eqn:Hth.
  - rewrite (tokenize_registered C lang line state w rs hl th) by done. simpl.
    repeat apply conj; try done; [|by eexists].
    intros l o Hl.
    match goal with
    | |- context [fresh (dom (<[?m := ?x]> ?h))] =>
        destruct (fresh_after_insert h m x) as (_ & He & _)
    end.
    rewrite !lookup_insert_ne; [done| |]; intros E; congruence.
  - rewrite (tokenize_unregistered_run C lang line state w rs hl) by done. simpl.
    repeat apply conj; try done; [|by eexists].
    intros l o Hl. rewrite lookup_insert_ne; [done|]. intros E; congruence.
Qed.

Lemma tokenize_preserves_witness :
  heap (tokenize Demo.collaborators "ts" "// hi" Demo.started.1 Demo.started.2).2
    !! Demo.started.1
  = Some (OTokenizerState 0 7).
Proof.
  apply (proj1 (proj2 (proj2
           (tokenize_preserves Demo.collaborators "ts" "// hi"
              Demo.started.1 Demo.started.2)))).
  vm_compute. reflexivity.
Defined.

(** X16: of the calls the log records (the engine's set-active-theme,
    the interpreter's [tokenizeLine2], [console.warn] and the calls to the
    host), a [tokenize] call on a line below the ceiling, with a Line
    State of this bridge, makes these and no other, in this order: set-active-theme
    with the recorded identifier, one [tokenizeLine2] with the line, the
    stack of the given state and the time limit 500, and a warning exactly
    when the interpreter stopped early. This holds whether or not the call
    then completes. The grammar lookup [getLanguage(lang)], which comes
    first in the source, is a read that the log does not record. *)
Theorem tokenize_calls (C : Collaborators) (lang line : string)
    (state : loc) (w : World) rs :
  (JS.length line < 20000)%N ->
  heap w !! state = Some (OTokenizerState rs (the_highlighter C)) ->
  log (tokenize C lang line state w).2
  = (log w ++ [ EvEngineSetTheme (currentTheme w);
                EvTokenizeLine2 lang line rs 500 ]
     ++ (if stoppedEarly (tokenizeLine2 C lang line rs 500)
         then [ EvWarn (warning_of line) ] else []))%list.
Proof.
  intros Hlen Hst.
  destruct (currentTheme w ≫= fun id => themeMap w !! id) as [th|] eqn:Hth.
  - by rewrite (tokenize_registered_log C lang line state w rs (the_highlighter C) th).
  - by rewrite (tokenize_unregistered_run C lang line state w rs (the_highlighter C)).
Qed.

Lemma tokenize_calls_witness :
  log (tokenize Demo.collaborators "ts" "// hi" Demo.started.1 Demo.started.2).2
  = (log Demo.started.2
     ++ [ EvEngineSetTheme (currentTheme Demo.started.2);
          EvTokenizeLine2 "ts" "// hi" 0 500 ]
     ++ (if stoppedEarly (tokenizeLine2 Demo.collaborators "ts" "// hi" 0 500)
         then [ EvWarn (warning_of "// hi") ] else []))%list.
Proof.
  apply (tokenize_calls Demo.collaborators "ts" "// hi"
           Demo.started.1 Demo.started.2 0).
  - vm_compute. reflexivity.
  - vm_compute. reflexivity.
Defined.



(** X18: with a valid Line State, the end state of a line at or above
    the ceiling equals the state given; the end state of a line below the
    ceiling is a new object and never equals the state given, in either
    direction, even when the interpreter returns the stack it was
    given. *)
Theorem tokenize_endState_equality (C : Collaborators) (lang line : string)
    (state : loc) (w : World) rs hl :
  heap w !! state = Some (OTokenizerState rs hl) ->
  ((20000 <= JS.length line)%N ->
     exists toks w',
       tokenize C lang line state w = (Ok (mkLineTokens state toks), w')
       /\ equals state (Some state) w' = (Ok true, w'))
  /\ ((JS.length line < 20000)%N ->
      forall th,
        (currentTheme w ≫= fun id => themeMap w !! id) = Some th ->
        exists e toks w',
          tokenize C lang line state w = (Ok (mkLineTokens e toks), w')
          /\ e <> state
          /\ equals e (Some state) w' = (Ok false, w')
          /\ equals state (Some e) w' = (Ok false, w')).
Proof.
  intros Hst. split.
  - intros Hlen. exists [mkToken 0 ""], w. split.
    + unfold tokenize, tokenizeMaxLineLength.
      destruct (N.leb_spec 20000 (JS.length line)); [done|lia].
    + rewrite (equals_run state (Some state) w rs hl Hst), Hst.
      by rewrite !Nat.eqb_refl.
  - intros Hlen th Hth.
    rewrite (tokenize_registered C lang line state w rs hl th) by done.
    pose proof (alloc_fresh w) as Hm.
    match goal with
    | |- context [fresh (dom (<[?m := ?x]> ?h))] =>
        destruct (fresh_after_insert h m x) as (Hne & He & _);
        set (e := fresh (dom (<[m := x]> h))) in *
    end.
    assert (Hes : e <> state) by (intros E; congruence).
    eexists e, _, _. split; [reflexivity|].
    match goal with |- _ /\ equals _ _ ?w1 = _ /\ _ => set (w' := w1) end.
    assert (He' : heap w' !! e
                  = Some (OTokenizerState
                            (res_ruleStack (tokenizeLine2 C lang line rs 500)) hl))
      by apply lookup_insert_eq.
    assert (Hs' : heap w' !! state = Some (OTokenizerState rs hl)).
    { unfold w'. simpl. rewrite !lookup_insert_ne; [done| |done].
      intros E; congruence. }
    repeat apply conj; [done| |].
    + rewrite (equals_run e (Some state) w' _ hl He'), Hs'.
      destruct (Nat.eqb_spec state e); [congruence|done].
    + rewrite (equals_run state (Some e) w' rs hl Hs'), He'.
      destruct (Nat.eqb_spec e state); [congruence|done].
Qed.

Lemma tokenize_endState_equality_witness :
  exists e toks w',
    tokenize Scenario.steady "ts" "// hi" 0 Scenario.mixed_heap_world
    = (Ok (mkLineTokens e toks), w')
    /\ e <> 0
    /\ equals e (Some 0) w' = (Ok false, w')
    /\ equals 0 (Some e) w' = (Ok false, w').
Proof.
  apply (proj2 (tokenize_endState_equality Scenario.steady "ts" "// hi" 0
                  Scenario.mixed_heap_world 4 7 ltac:(vm_compute; reflexivity))
           ltac:(vm_compute; reflexivity) Demo.light_monaco).
  vm_compute. reflexivity.
Defined.

(** ** Line State: initial states, equality, clones *)

(** X19: [getInitialState] returns a new Line State wrapping the
    grammar's starting stack and the bridge's highlighter, and makes no
    call; two initial states are two objects, not equal to each other,
    each equal to itself. *)
Theorem getInitialState_fresh (C : Collaborators) (w : World) :
  exists l1 w1 l2 w2,
    getInitialState C w = (Ok l1, w1)
    /\ heap w !! l1 = None
    /\ heap w1 !! l1 = Some (OTokenizerState INITIAL (the_highlighter C))
    /\ log w1 = log w
    /\ getInitialState C w1 = (Ok l2, w2)
    /\ l2 <> l1
    /\ heap w2 !! l2 = Some (OTokenizerState INITIAL (the_highlighter C))
    /\ equals l1 (Some l2) w2 = (Ok false, w2)
    /\ equals l1 (Some l1) w2 = (Ok true, w2).
Proof.
  set (st := OTokenizerState INITIAL (the_highlighter C)).
  set (l1 := fresh (dom (heap w))).
  set (w1 := set_heap (insert l1 st) w).
  set (l2 := fresh (dom (heap w1))).
  set (w2 := set_heap (insert l2 st) w1).
  exists l1, w1, l2, w2.
  assert (Hne : l2 <> l1) by exact (proj1 (fresh_after_insert (heap w) l1 st)).
  assert (H2 : heap w2 !! l2 = Some st) by apply lookup_insert_eq.
  assert (H1 : heap w2 !! l1 = Some st).
  { unfold w2. simpl. rewrite lookup_insert_ne by done. apply lookup_insert_eq. }
  repeat apply conj; try done.
  - apply alloc_fresh.
  - apply lookup_insert_eq.
  - rewrite (equals_run l1 (Some l2) w2 INITIAL (the_highlighter C) H1).
    unfold st in H2. rewrite H2.
    destruct (Nat.eqb_spec l2 l1); [congruence|done].
  - rewrite (equals_run l1 (Some l1) w2 INITIAL (the_highlighter C) H1).
    unfold st in H1. rewrite H1. by rewrite !Nat.eqb_refl.
Qed.

(** X20: on Line States, [equals] is reflexive and symmetric. *)
Theorem equals_reflexive_symmetric (s t : loc) (w : World) rs hl rs' hl' :
  heap w !! s = Some (OTokenizerState rs hl) ->
  heap w !! t = Some (OTokenizerState rs' hl') ->
  equals s (Some s) w = (Ok true, w)
  /\ equals s (Some t) w = equals t (Some s) w.
Proof.
  intros Hs Ht.
  rewrite (equals_run s (Some s) w rs hl Hs), (equals_run s (Some t) w rs hl Hs),
    (equals_run t (Some s) w rs' hl' Ht), Hs, Ht.
  split; [by rewrite !Nat.eqb_refl|].
  destruct (Nat.eqb_spec t s) as [->|Hne].
  - assert (rs' = rs) as -> by congruence. by rewrite !Nat.eqb_refl.
  - destruct (Nat.eqb_spec s t); [congruence|done].
Qed.

Lemma equals_reflexive_symmetric_witness :
  equals Demo.started.1 (Some Demo.started.1) (Demo.first_call).2
  = (Ok true, (Demo.first_call).2)
  /\ equals Demo.started.1 (Some (Demo.end_of Demo.first_call)) (Demo.first_call).2
     = equals (Demo.end_of Demo.first_call) (Some Demo.started.1) (Demo.first_call).2.
Proof.
  apply (equals_reflexive_symmetric Demo.started.1 (Demo.end_of Demo.first_call)
           (Demo.first_call).2 0 7 1 7).
  - vm_compute. reflexivity.
  - vm_compute. reflexivity.
Defined.

(** X21: a clone can stand for its original in [tokenize]: the line is
    tokenized from the same stack, into the same tokens, and the end
    states hold the same stack and highlighter. *)
Theorem tokenize_from_clone (C : Collaborators) (lang line : string)
    (state : loc) (w : World) rs hl th :
  (JS.length line < 20000)%N ->
  heap w !! state = Some (OTokenizerState rs hl) ->
  (currentTheme w ≫= fun id => themeMap w !! id) = Some th ->
  exists c w1 e1 e2 toks w2 w3,
    clone state w = (Ok c, w1)
    /\ c <> state
    /\ tokenize C lang line c w1 = (Ok (mkLineTokens e1 toks), w2)
    /\ tokenize C lang line state w = (Ok (mkLineTokens e2 toks), w3)
    /\ heap w2 !! e1 = heap w3 !! e2
    /\ log w2 = log w3.
Proof.
  intros Hlen Hst Hth.
  rewrite (clone_ok state w rs hl Hst).
  pose proof (alloc_fresh w) as Hc.
  set (c := fresh (dom (heap w))) in *.
  set (w1 := set_heap (insert c (OTokenizerState rs hl)) w).
  assert (Hcs : c <> state) by (intros E; congruence).
  assert (Hst1 : heap w1 !! c = Some (OTokenizerState rs hl))
    by apply lookup_insert_eq.
  assert (Hth1 : (currentTheme w1 ≫= fun id => themeMap w1 !! id) = Some th)
    by done.
  pose proof (tokenize_registered C lang line c w1 rs hl th Hlen Hst1 Hth1) as H1.
  pose proof (tokenize_registered C lang line state w rs hl th Hlen Hst Hth) as H2.
  cbv zeta in H1, H2.
  eexists c, w1, _, _, _, _, _.
  split; [reflexivity|]. split; [done|].
  split; [exact H1|]. split; [exact H2|]. simpl.
  by rewrite !lookup_insert_eq.
Qed.

Lemma tokenize_from_clone_witness :
  exists c w1 e1 e2 toks w2 w3,
    clone Demo.started.1 Demo.started.2 = (Ok c, w1)
    /\ c <> Demo.started.1
    /\ tokenize Demo.collaborators "ts" "// hi" c w1 = (Ok (mkLineTokens e1 toks), w2)
    /\ tokenize Demo.collaborators "ts" "// hi" Demo.started.1 Demo.started.2
       = (Ok (mkLineTokens e2 toks), w3)
    /\ heap w2 !! e1 = heap w3 !! e2
    /\ log w2 = log w3.
Proof.
  apply (tokenize_from_clone Demo.collaborators "ts" "// hi"
           Demo.started.1 Demo.started.2 0 7 Demo.light_monaco).
  - vm_compute. reflexivity.
  - vm_compute. reflexivity.
  - vm_compute. reflexivity.
Defined.

(** ** Registration and the Active-Theme Tracker *)

Section RegistrationRuns.

Variable C : Collaborators.

Lemma shikiToMonaco_loops :
  shikiToMonaco C
  = (modify new_bridge_state >>
     for_each (getLoadedThemes C) (register_theme C) >>
     modify (set_currentTheme (head (getLoadedThemes C))) >>
     for_each (getLoadedLanguages C) (register_language C)).
Proof. reflexivity. Qed.

Lemma for_each_app {A} (l1 l2 : list A) (body : A -> M unit) (w : World) :
  for_each (l1 ++ l2) body w
  = (for_each l1 body >> for_each l2 body) w.
Proof.
  revert w. induction l1 as [|a l1 IH]; intros w; [done|].
  cbn [for_each app]. unfold bind.
  destruct (body a w) as [[[]|e] w1]; [|done].
  rewrite IH. reflexivity.
Qed.

Lemma register_theme_ok (themeId : string) (mt : MonacoTheme) (w : World) :
  textmateThemeToMonacoTheme (getTheme C themeId) = Ok mt ->
  register_theme C themeId w
  = (Ok tt, add_log (EvDefineTheme themeId mt)
              (set_themeMap (insert themeId mt) w)).
Proof.
  intros H. unfold register_theme, bind, lift, modify, host_defineTheme.
  by rewrite H.
Qed.

Lemma register_theme_throw (themeId : string) (e : Error) (w : World) :
  textmateThemeToMonacoTheme (getTheme C themeId) = Throw e ->
  register_theme C themeId w = (Throw e, w).
Proof. intros H. unfold register_theme, bind, lift. by rewrite H. Qed.

(** The loop over the themes, when every theme converts. *)
Lemma theme_loop_ok (themeIds : list string) (w : World) :
  Forall (fun id => is_ok (textmateThemeToMonacoTheme (getTheme C id)) = true)
    themeIds ->
  exists w',
    for_each themeIds (register_theme C) w = (Ok tt, w')
    /\ currentTheme w' = currentTheme w
    /\ engineTheme w' = engineTheme w
    /\ heap w' = heap w
    /\ log w' = (log w ++ define_events C themeIds)%list
    /\ (forall id, id ∈ themeIds ->
          exists mt, textmateThemeToMonacoTheme (getTheme C id) = Ok mt
                     /\ themeMap w' !! id = Some mt)
    /\ (forall id, id ∉ themeIds -> themeMap w' !! id = themeMap w !! id).
Proof.
  intros Hall. revert w.
  induction Hall as [|id themeIds Hid _ IH]; intros w.
  { exists w. repeat apply conj; try done.
    - by rewrite app_nil_r.
    - by intros id ?%elem_of_nil. }
  destruct (textmateThemeToMonacoTheme (getTheme C id)) as [mt|] eqn:Hc;
    [|discriminate].
  destruct (IH (add_log (EvDefineTheme id mt) (set_themeMap (insert id mt) w)))
    as (w' & Hrun & Hcur & Heng & Hheap & Hlog & Hin & Hout).
  exists w'. repeat apply conj; try done.
  - cbn [for_each]. unfold bind. by rewrite (register_theme_ok id mt w Hc).
  - rewrite Hlog. unfold define_events. cbn [omap list_omap]. rewrite Hc.
    simpl. by rewrite <- app_assoc.
  - intros id' Hid'.
    destruct (decide (id' ∈ themeIds)) as [Hi|Hi]; [by apply Hin|].
    apply elem_of_cons in Hid' as [->|]; [|done].
    exists mt. split; [done|]. rewrite (Hout id Hi). simpl.
    apply lookup_insert_eq.
  - intros id' Hid'. apply not_elem_of_cons in Hid' as [Hne Hni].
    rewrite (Hout id' Hni). simpl. by rewrite lookup_insert_ne.
Qed.

(** The loop over the languages. *)
Lemma language_loop (langs : list string) (w : World) :
  for_each langs (register_language C) w
  = (Ok tt,
     mkWorld (themeMap w) (currentTheme w) (engineTheme w) (heap w)
       (log w ++ (EvSetTokensProvider
                    <$> List.filter (fun lang => bool_decide (lang ∈ host_getLanguages C))
                          langs))%list).
Proof.
  revert w. induction langs as [|lang langs IH]; intros w.
  { simpl. unfold ret. rewrite app_nil_r. by destruct w. }
  cbn [for_each List.filter]. unfold bind, register_language at 1.
  destruct (bool_decide (lang ∈ host_getLanguages C)).
  - unfold host_setTokensProvider, modify. rewrite IH. simpl.
    by rewrite <- app_assoc.
  - unfold ret. by rewrite IH.
Qed.

Lemma shikiToMonaco_run (w : World) :
  Forall (fun id => is_ok (textmateThemeToMonacoTheme (getTheme C id)) = true)
    (getLoadedThemes C) ->
  exists w',
    shikiToMonaco C w = (Ok tt, w')
    /\ currentTheme w' = head (getLoadedThemes C)
    /\ (forall id, id ∈ getLoadedThemes C ->
          exists mt, textmateThemeToMonacoTheme (getTheme C id) = Ok mt
                     /\ themeMap w' !! id = Some mt)
    /\ (forall id, id ∉ getLoadedThemes C -> themeMap w' !! id = None)
    /\ heap w' = heap w
    /\ engineTheme w' = engineTheme w
    /\ log w' = (log w ++ define_events C (getLoadedThemes C)
                 ++ provider_events C)%list.
Proof.
  intros Hall.
  destruct (theme_loop_ok (getLoadedThemes C) (new_bridge_state w) Hall)
    as (w1 & Hrun & Hcur & Heng & Hheap & Hlog & Hin & Hout).
  rewrite shikiToMonaco_loops. unfold bind at 1, modify at 1.
  unfold bind at 1. rewrite Hrun.
  unfold bind, modify. rewrite language_loop. simpl.
  eexists. split; [reflexivity|]. simpl.
  repeat apply conj; try done.
  rewrite Hlog. unfold provider_events. by rewrite <- app_assoc.
Qed.

Lemma shikiToMonaco_throw (w : World) (l1 l2 : list string) (bad : string)
    (e : Error) :
  getLoadedThemes C = (l1 ++ bad :: l2)%list ->
  Forall (fun id => is_ok (textmateThemeToMonacoTheme (getTheme C id)) = true) l1 ->
  textmateThemeToMonacoTheme (getTheme C bad) = Throw e ->
  exists w',
    shikiToMonaco C w = (Throw e, w')
    /\ log w' = (log w ++ define_events C l1)%list
    /\ heap w' = heap w
    /\ engineTheme w' = engineTheme w.
Proof.
  intros Hids Hall Hbad.
  destruct (theme_loop_ok l1 (new_bridge_state w) Hall)
    as (w1 & Hrun & Hcur & Heng & Hheap & Hlog & Hin & Hout).
  exists w1. repeat apply conj; try done.
  rewrite shikiToMonaco_loops, Hids. unfold bind at 1, modify at 1.
  unfold bind at 1.
  rewrite for_each_app. unfold bind at 1. rewrite Hrun.
  cbn [for_each]. unfold bind at 1.
  by rewrite (register_theme_throw bad e w1 Hbad).
Qed.

Lemma tokenize_engineTheme (lang line : string) (state : loc) (w : World) rs hl :
  (JS.length line < 20000)%N ->
  heap w !! state = Some (OTokenizerState rs hl) ->
  engineTheme (tokenize C lang line state w).2 = currentTheme w.
Proof.
  intros Hlen Hst.
  destruct (currentTheme w ≫= fun id => themeMap w !! id) as [th|] eqn:Hth.
  - by rewrite (tokenize_registered C lang line state w rs hl th).
  - by rewrite (tokenize_unregistered_run C lang line state w rs hl).
Qed.

Lemma setTheme_ok (id : string) (w : World) :
  host_setTheme_throws C id = false ->
  setTheme C id w
  = (Ok tt, set_currentTheme (Some id) (add_log (EvHostSetTheme id) w)).
Proof.
  intros H. unfold setTheme, _setTheme, bind, modify, ret. simpl.
  by rewrite H.
Qed.

End RegistrationRuns.

Example registration_stops_at_bad_theme :
  (shikiToMonaco Scenario.bad_second_theme empty_world).1
  = Throw (TypeError "Cannot read properties of undefined (reading 'foreground')")
  /\ log (shikiToMonaco Scenario.bad_second_theme empty_world).2
     = [ EvDefineTheme "light" Demo.light_monaco ].
Proof. vm_compute. split; reflexivity. Qed.



(** X23: when a loaded theme does not convert, registration throws the
    converter's error at the first such theme: the host has received a
    [defineTheme] for each theme before it and nothing else, so no later
    theme is defined and no language gets a tokens provider; no Line
    State is created and the engine's active theme is not touched. *)
Theorem shikiToMonaco_bad_theme (C : Collaborators) (w : World)
    (l1 l2 : list string) (bad : string) (e : Error) :
  getLoadedThemes C = (l1 ++ bad :: l2)%list ->
  Forall (fun id => is_ok (textmateThemeToMonacoTheme (getTheme C id)) = true) l1 ->
  textmateThemeToMonacoTheme (getTheme C bad) = Throw e ->
  exists w',
    shikiToMonaco C w = (Throw e, w')
    /\ log w' = (log w ++ define_events C l1)%list
    /\ heap w' = heap w
    /\ engineTheme w' = engineTheme w.
Proof. apply shikiToMonaco_throw. Qed.

Lemma shikiToMonaco_bad_theme_witness :
  exists w',
    shikiToMonaco Scenario.bad_second_theme empty_world
    = (Throw (TypeError "Cannot read properties of undefined (reading 'foreground')"), w')
    /\ log w' = (log empty_world
                 ++ define_events Scenario.bad_second_theme ["light"])%list
    /\ heap w' = heap empty_world
    /\ engineTheme w' = engineTheme empty_world.
Proof.
  apply (shikiToMonaco_bad_theme Scenario.bad_second_theme empty_world
           ["light"] ["dark"] "bad").
  - reflexivity.
  - repeat constructor.
  - vm_compute. reflexivity.
Defined.



(** X25: with no loaded theme, registration returns normally but
    records no theme and registers none; then every line below the
    ceiling makes [tokenize] throw a [TypeError] from the initial
    state. *)
Theorem no_theme_bridge_throws (C : Collaborators) :
  getLoadedThemes C = [] ->
  exists w0 s w1,
    shikiToMonaco C empty_world = (Ok tt, w0)
    /\ currentTheme w0 = None
    /\ themeMap w0 = ∅
    /\ getInitialState C w0 = (Ok s, w1)
    /\ forall lang line,
         (JS.length line < 20000)%N ->
         (tokenize C lang line s w1).1
         = Throw (TypeError "Cannot read properties of undefined (reading 'rules')").
Proof.
  intros Hids.
  assert (Hall : Forall (fun id =>
                   is_ok (textmateThemeToMonacoTheme (getTheme C id)) = true)
                   (getLoadedThemes C)) by (rewrite Hids; constructor).
  destruct (shikiToMonaco_run C empty_world Hall)
    as (w0 & Hrun & Hcur & _ & Hout & _).
  rewrite Hids in Hcur, Hout. simpl in Hcur.
  set (s := fresh (dom (heap w0))).
  set (w1 := set_heap (insert s (OTokenizerState INITIAL (the_highlighter C))) w0).
  exists w0, s, w1. repeat apply conj; try done.
  - apply map_eq. intros id.
    by rewrite (Hout id) by apply not_elem_of_nil.
  - intros lang line Hlen.
    rewrite (tokenize_unregistered_run C lang line s w1 INITIAL (the_highlighter C));
      [done..| |].
    + apply lookup_insert_eq.
    + unfold w1. simpl. by rewrite Hcur.
Qed.

Lemma no_theme_bridge_throws_witness :
  exists w0 s w1,
    shikiToMonaco Scenario.no_themes empty_world = (Ok tt, w0)
    /\ currentTheme w0 = None
    /\ themeMap w0 = ∅
    /\ getInitialState Scenario.no_themes w0 = (Ok s, w1)
    /\ forall lang line,
         (JS.length line < 20000)%N ->
         (tokenize Scenario.no_themes lang line s w1).1
         = Throw (TypeError "Cannot read properties of undefined (reading 'rules')").
Proof.
  apply (no_theme_bridge_throws Scenario.no_themes).
  reflexivity.
Defined.

(** X26: selecting a theme through the replaced [setTheme] (when the
    host's own [setTheme] returns) records the identifier but does not
    reach the engine, and creates or changes no object or registered
    theme; the engine's active theme becomes that identifier at the next
    [tokenize] call on a line below the ceiling. *)
Theorem setTheme_reaches_engine_at_tokenize (C : Collaborators) (id : string)
    (w : World) :
  host_setTheme_throws C id = false ->
  exists w1,
    setTheme C id w = (Ok tt, w1)
    /\ currentTheme w1 = Some id
    /\ engineTheme w1 = engineTheme w
    /\ heap w1 = heap w
    /\ themeMap w1 = themeMap w
    /\ forall lang line state rs hl,
         (JS.length line < 20000)%N ->
         heap w !! state = Some (OTokenizerState rs hl) ->
         engineTheme (tokenize C lang line state w1).2 = Some id.
Proof.
  intros Hhost. rewrite (setTheme_ok C id w Hhost).
  eexists. split; [reflexivity|]. repeat apply conj; try done.
  intros lang line state rs hl Hlen Hst.
  by rewrite (tokenize_engineTheme C lang line state _ rs hl).
Qed.

Lemma setTheme_reaches_engine_at_tokenize_witness :
  engineTheme (Demo.first_call).2 = Some "light"
  /\ exists w1,
      setTheme Demo.collaborators "dark" (Demo.first_call).2 = (Ok tt, w1)
      /\ currentTheme w1 = Some "dark"
      /\ engineTheme w1 = engineTheme (Demo.first_call).2
      /\ heap w1 = heap (Demo.first_call).2
      /\ themeMap w1 = themeMap (Demo.first_call).2
      /\ forall lang line state rs hl,
           (JS.length line < 20000)%N ->
           heap (Demo.first_call).2 !! state = Some (OTokenizerState rs hl) ->
           engineTheme (tokenize Demo.collaborators lang line state w1).2 = Some "dark".
Proof.
  split; [reflexivity|].
  apply (setTheme_reaches_engine_at_tokenize Demo.collaborators "dark"
           (Demo.first_call).2).
  reflexivity.
Defined.



(** ** From an entry of a theme to the scope of a token *)

Lemma first_rule_of_color_exists (c : string) (rs : list Rule) (r : Rule) :
  r ∈ rs ->
  normalizeColor (foreground r) = Some c ->
  exists r', first_rule_of_color c rs = Some r'.
Proof.
  intros Hin Hc. unfold first_rule_of_color.
  destruct (List.find _ rs) as [r'|] eqn:Hf; [by eexists|].
  apply list_elem_of_In in Hin.
  pose proof (find_none _ _ Hf r Hin) as Hr. simpl in Hr.
  rewrite bool_decide_true in Hr by done. discriminate.
Qed.

(** X28: in a theme converted from its entry list, the colour of every
    rule is found again: when the foreground [f] of the rule's entry has at
    most one marker and is not the marker alone, a token whose colour
    normalizes as [f] does is given a non-empty scope, the token of the
    first rule of that colour. *)
Theorem converted_colour_resolves (theme : Theme) (mt : MonacoTheme)
    (r : Rule) (f colour : string) :
  theme_rules theme = None ->
  textmateThemeToMonacoTheme theme = Ok mt ->
  r ∈ rules mt ->
  foreground r = Some (normalizeColor_string f) ->
  count_char "#" f <= 1 ->
  JS.truthy (normalizeColor_string f) = true ->
  normalizeColor_string colour = normalizeColor_string f ->
  exists r',
    first_rule_of_color (normalizeColor_string f) (rules mt) = Some r'
    /\ r' ∈ rules mt
    /\ scope_of_color (build_index (rules mt)) (normalizeColor_string colour)
       = token r'
    /\ JS.truthy (token r') = true.
Proof.
  intros Hrs Hc Hr Hfg Hm Ht Hcol.
  assert (Hn : normalizeColor (foreground r) = Some (normalizeColor_string f)).
  { rewrite Hfg. simpl. f_equal. by apply normalizeColor_string_twice. }
  destruct (first_rule_of_color_exists _ _ r Hr Hn) as [r' Hr'].
  destruct (first_rule_of_color_spec _ _ _ Hr') as [Hin' _].
  exists r'. repeat apply conj; try done.
  - rewrite Hcol, scope_of_color_lookup. unfold build_index.
    rewrite foldl_index_step_lookup, lookup_empty, Hr' by done. done.
  - by destruct (converted_rule_elem theme mt Hrs Hc r' Hin') as [? _].
Qed.

Lemma converted_colour_resolves_witness :
  exists r',
    first_rule_of_color (normalizeColor_string "#CE9") (rules Demo.dark_monaco)
    = Some r'
    /\ r' ∈ rules Demo.dark_monaco
    /\ scope_of_color (build_index (rules Demo.dark_monaco))
         (normalizeColor_string "CCEE99")
       = token r'
    /\ JS.truthy (token r') = true.
Proof.
  apply (converted_colour_resolves Demo.dark_theme Demo.dark_monaco
           (mkRule "string.quoted" (Some "ccee99")) "#CE9" "CCEE99").
  - reflexivity.
  - vm_compute. reflexivity.
  - simpl. do 2 apply list_elem_of_further. apply list_elem_of_here.
  - reflexivity.
  - vm_compute. lia.
  - reflexivity.
  - reflexivity.
Defined.

(** ** The tokens of a line, from the rule list *)

Lemma bridge_tokens_expected (C : Collaborators) (colorMap : list string)
    (rs : list Rule) (ts : list N) (j : nat) :
  bridge_tokens C colorMap (build_index rs) ts !! j
  = expected_token C colorMap rs ts j.
Proof.
  unfold expected_token. destruct (ts !! (2 * j)) as [s|] eqn:Hs.
  - rewrite (bridge_tokens_lookup C colorMap _ ts j s Hs). do 2 f_equal.
    unfold expected_scope, colorMap_at.
    set (color := normalizeColor_string _).
    change (default "" (colorMap !! getForeground C (default 0%N (ts !! (2 * j + 1)))))
      with (match colorMap !! getForeground C (default 0%N (ts !! (2 * j + 1))) with
            | Some c => c
            | None => ""
            end).
    fold color. rewrite scope_of_color_lookup.
    destruct (JS.truthy color) eqn:Ht.
    + unfold build_index. rewrite foldl_index_step_lookup, lookup_empty by done.
      by destruct (first_rule_of_color color rs).
    + destruct color; [|discriminate]. unfold build_index.
      by rewrite foldl_index_step_empty_key, lookup_empty.
  - unfold bridge_tokens. rewrite list_lookup_fmap, lookup_seq_ge; [done|].
    apply lookup_ge_None in Hs.
    destruct (Nat.le_gt_cases (tokensLength ts) j) as [|Hj]; [done|].
    apply tokensLength_spec in Hj. lia.
Qed.

Example two_tone_before_switch :
  currentTheme Scenario.two_tone_started.2 = Some "light"
  /\ (tokenize Scenario.two_tone "ts" "// hi" Scenario.two_tone_started.1
        Scenario.two_tone_started.2).1
     = Ok (mkLineTokens 2 [mkToken 0 "comment"]).
Proof. vm_compute. split; reflexivity. Qed.

(** ** Active-Theme Tracker *)

(** C3: the replacement of the host's [setTheme] first calls the host's
    own [setTheme] and then records the identifier: when the host call
    throws, nothing is recorded; when it returns, the identifier is
    recorded after the host call was logged. After it was called with an
    identifier [id] (["dark"], say) that has a host-form theme, the next
    [tokenize] call resolves scopes with that theme's rule table, whatever
    theme was active before: it returns one token per start offset of the
    interpreter's array, and the scope of each is the token of the first
    rule of the theme of [id] whose normalized foreground is the
    normalized colour the engine's colour table for [id] gives the token's
    metadata, or empty when that theme has no such rule. *)
Theorem theme_switch_consistency (C : Collaborators) (id lang line : string)
    (state : loc) (w : World) rs hl th :
  themeMap w !! id = Some th ->
  heap w !! state = Some (OTokenizerState rs hl) ->
  (JS.length line < 20000)%N ->
  (host_setTheme_throws C id = true ->
     setTheme C id w = (Throw (HostError "setTheme"), add_log (EvHostSetTheme id) w))
  /\ (host_setTheme_throws C id = false ->
      exists w1 w2 endState toks,
        setTheme C id w = (Ok tt, w1)
        /\ w1 = set_currentTheme (Some id) (add_log (EvHostSetTheme id) w)
        /\ tokenize C lang line state w1 = (Ok (mkLineTokens endState toks), w2)
        /\ forall j,
             toks !! j
             = expected_token C (colorMapOf C (Some id)) (rules th)
                 (res_tokens (tokenizeLine2 C lang line rs 500)) j).
Proof.
  intros Hth Hst Hlen. split; intros Hhost.
  - unfold setTheme, _setTheme, bind, modify, throw. simpl. by rewrite Hhost.
  - eexists _, _, _, _. split; [|split; [reflexivity|]].
    + unfold setTheme, _setTheme, bind, modify, ret. simpl. by rewrite Hhost.
    + split.
      * by rewrite (tokenize_registered C lang line state _ rs hl th).
      * intros j. apply bridge_tokens_expected.
Qed.

Lemma theme_switch_consistency_witness :
  exists w1 w2 endState toks,
    setTheme Scenario.two_tone "dark" Scenario.two_tone_started.2 = (Ok tt, w1)
    /\ w1 = set_currentTheme (Some "dark")
              (add_log (EvHostSetTheme "dark") Scenario.two_tone_started.2)
    /\ tokenize Scenario.two_tone "ts" "// hi" Scenario.two_tone_started.1 w1
       = (Ok (mkLineTokens endState toks), w2)
    /\ (forall j,
          toks !! j
          = expected_token Scenario.two_tone
              (colorMapOf Scenario.two_tone (Some "dark"))
              (rules Demo.dark_monaco)
              (res_tokens (tokenizeLine2 Scenario.two_tone "ts" "// hi" 0 500)) j)
    /\ toks !! 0 = Some (mkToken 0 "string").
Proof.
  destruct (proj2 (theme_switch_consistency Scenario.two_tone "dark" "ts" "// hi"
                     Scenario.two_tone_started.1 Scenario.two_tone_started.2
                     0 7 Demo.dark_monaco
                     ltac:(vm_compute; reflexivity)
                     ltac:(vm_compute; reflexivity)
                     ltac:(vm_compute; reflexivity))
              ltac:(reflexivity))
    as (w1 & w2 & endState & toks & Hset & Hw1 & Htok & Hall).
  exists w1, w2, endState, toks.
  split; [exact Hset|]. split; [exact Hw1|]. split; [exact Htok|].
  split; [exact Hall|]. exact (Hall 0).
Defined.

(** ** Tokenizer Bridge: early stop *)

(** C5, as stated, fails: after an early stop [tokenize] warns and can
    still fail. Under a recorded theme identifier that has no host-form
    theme (the host's built-in ["vs"]), on the line ["slow"], for which
    the interpreter reports an early stop, the warning is emitted and then
    [tokenize] throws: no token list and no end state are returned. *)
Lemma stopped_early_unregistered_throws :
  stoppedEarly (tokenizeLine2 Demo.collaborators "ts" "slow" 0 500) = true
  /\ heap Demo.builtin_selected !! Demo.started.1 = Some (OTokenizerState 0 7)
  /\ currentTheme Demo.builtin_selected = Some "vs"
  /\ themeMap Demo.builtin_selected !! "vs" = None
  /\ (tokenize Demo.collaborators "ts" "slow" Demo.started.1 Demo.builtin_selected).1
     = Throw (TypeError "Cannot read properties of undefined (reading 'rules')")
  /\ last (log (tokenize Demo.collaborators "ts" "slow" Demo.started.1
                  Demo.builtin_selected).2)
     = Some (EvWarn (warning_of "slow")).
Proof. repeat split; vm_compute; reflexivity. Qed.

(** C5, amended: when the interpreter reports that it stopped early, on
    a line below the ceiling and with a valid Line State, [tokenize] emits
    the warning, whether or not it then completes; when moreover the
    recorded theme identifier has a host-form theme, it does not fail: it
    returns a token for every start offset the interpreter produced, each
    with the scope the theme's rules give its colour, and a new Line State
    wrapping the interpreter's stack. *)
Theorem tokenize_stopped_early (C : Collaborators) (lang line : string)
    (state : loc) (w : World) rs hl :
  (JS.length line < 20000)%N ->
  heap w !! state = Some (OTokenizerState rs hl) ->
  stoppedEarly (tokenizeLine2 C lang line rs 500) = true ->
  last (log (tokenize C lang line state w).2) = Some (EvWarn (warning_of line))
  /\ forall th,
       (currentTheme w ≫= fun id => themeMap w !! id) = Some th ->
       exists endState toks w',
         tokenize C lang line state w = (Ok (mkLineTokens endState toks), w')
         /\ log w' = (log w ++ [ EvEngineSetTheme (currentTheme w);
                                 EvTokenizeLine2 lang line rs 500;
                                 EvWarn (warning_of line) ])%list
         /\ (forall j,
               toks !! j
               = expected_token C (colorMapOf C (currentTheme w)) (rules th)
                   (res_tokens (tokenizeLine2 C lang line rs 500)) j)
         /\ heap w !! endState = None
         /\ heap w' !! endState
            = Some (OTokenizerState
                      (res_ruleStack (tokenizeLine2 C lang line rs 500)) hl).
Proof.
  intros Hlen Hst Hstop. split.
  - destruct (currentTheme w ≫= fun id => themeMap w !! id) as [th|] eqn:Hth.
    + rewrite (tokenize_registered_log C lang line state w rs hl th) by done.
      unfold tokenize_events. rewrite Hstop, !app_assoc. apply last_snoc.
    + rewrite (tokenize_unregistered_run C lang line state w rs hl) by done.
      simpl. unfold tokenize_events. rewrite Hstop, !app_assoc. apply last_snoc.
  - intros th Hth.
    rewrite (tokenize_registered C lang line state w rs hl th) by done.
    rewrite Hstop. eexists _, _, _. split; [reflexivity|]. simpl.
    repeat apply conj; try reflexivity.
    + intros j. apply bridge_tokens_expected.
    + apply fresh_after_insert.
    + apply lookup_insert_eq.
Qed.

Lemma tokenize_stopped_early_witness :
  last (log (tokenize Demo.collaborators "ts" "slow" Demo.started.1 Demo.started.2).2)
  = Some (EvWarn (warning_of "slow"))
  /\ exists endState toks w',
      tokenize Demo.collaborators "ts" "slow" Demo.started.1 Demo.started.2
      = (Ok (mkLineTokens endState toks), w')
      /\ log w' = (log Demo.started.2
                   ++ [ EvEngineSetTheme (currentTheme Demo.started.2);
                        EvTokenizeLine2 "ts" "slow" 0 500;
                        EvWarn (warning_of "slow") ])%list
      /\ (forall j,
            toks !! j
            = expected_token Demo.collaborators
                (colorMapOf Demo.collaborators (currentTheme Demo.started.2))
                (rules Demo.light_monaco)
                (res_tokens (tokenizeLine2 Demo.collaborators "ts" "slow" 0 500)) j)
      /\ heap Demo.started.2 !! endState = None
      /\ heap w' !! endState
         = Some (OTokenizerState
                   (res_ruleStack (tokenizeLine2 Demo.collaborators "ts" "slow" 0 500)) 7).
Proof.
  destruct (tokenize_stopped_early Demo.collaborators "ts" "slow"
              Demo.started.1 Demo.started.2 0 7
              ltac:(vm_compute; reflexivity)
              ltac:(vm_compute; reflexivity)
              ltac:(reflexivity)) as [Hwarn Hok].
  split; [exact Hwarn|].
  apply (Hok Demo.light_monaco). vm_compute. reflexivity.
Defined.
